(** * KASA: the USSD session state machine of [main.py]

    A shallow embedding of the request handler [ussd_handler], of the
    registration wizard [handle_registration_flow] and of the three
    process-wide stores they work on (the session table, the user table
    and the emergency report log), followed by the properties of the
    handler.

    Conventions of the embedding.
    - A Python [str] is a [string]: the sequence of its characters, one
      [ascii] per character for ASCII text; the non-ASCII literals of the
      source ("✓", "📍", "🏢") are kept as their UTF-8 bytes and only ever
      appear inside response constants.  [str.strip], [str.lower],
      [str.upper] and slicing act on ASCII characters.
    - A Python [dict] used as a table whose order is observable
      ([users_db], iterated by [get_users_by_location]) is an association
      list in insertion order; tables only read by key ([sessions],
      [emergency_reports], a session's own dictionary) are [gmap]s.
    - The globals are one [Store], threaded through a state-and-exception
      monad [M]: a Python exception leaves the store as it was at the
      moment of the [raise].
    - What the handler reads from outside (the clock, the sender id of the
      environment, the SMS gateway) is an [Env] given with each request.
    - A request is served in one piece: the coroutine [ussd_handler] only
      awaits [handle_registration_flow], which has no suspension point, so
      no other request runs in between. *)

From Stdlib Require Import String Ascii List Bool Arith Lia DecimalString.
From stdpp Require Import base option gmap strings list fin_maps.

(** ** Python string primitives used by the handler *)

Module PyStr.

(** [str.split(sep)] for a one-character separator: never empty. *)
Fixpoint split (sep : ascii) (s : string) : list string :=
  match s with
  | EmptyString => [EmptyString]
  | String c rest =>
      if Ascii.eqb c sep then EmptyString :: split sep rest
      else match split sep rest with
           | [] => [String c EmptyString]
           | seg :: segs => String c seg :: segs
           end
  end.

(** [sep.join(parts)] for a one-character separator. *)
Fixpoint join (sep : ascii) (parts : list string) : string :=
  match parts with
  | [] => EmptyString
  | [p] => p
  | p :: ps => p +:+ String sep (join sep ps)
  end.

(** [str.isspace] on one ASCII character: TAB, LF, VT, FF, CR, the four
    separators FS, GS, RS, US, and the space. *)
Definition isspace (c : ascii) : bool :=
  let n := nat_of_ascii c in
  ((9 <=? n) && (n <=? 13)) || ((28 <=? n) && (n <=? 32)).

Fixpoint lstrip (s : string) : string :=
  match s with
  | EmptyString => EmptyString
  | String c rest => if isspace c then lstrip rest else s
  end.

Fixpoint rstrip (s : string) : string :=
  match s with
  | EmptyString => EmptyString
  | String c rest =>
      match rstrip rest with
      | EmptyString => if isspace c then EmptyString else String c EmptyString
      | kept => String c kept
      end
  end.

Definition strip (s : string) : string := rstrip (lstrip s).

Definition lower_char (c : ascii) : ascii :=
  let n := nat_of_ascii c in
  if (65 <=? n) && (n <=? 90) then ascii_of_nat (n + 32) else c.

Definition upper_char (c : ascii) : ascii :=
  let n := nat_of_ascii c in
  if (97 <=? n) && (n <=? 122) then ascii_of_nat (n - 32) else c.

Fixpoint map_chars (f : ascii -> ascii) (s : string) : string :=
  match s with
  | EmptyString => EmptyString
  | String c rest => String (f c) (map_chars f rest)
  end.

Definition lower : string -> string := map_chars lower_char.
Definition upper : string -> string := map_chars upper_char.

(** The slice [s[:n]]. *)
Fixpoint take (n : nat) (s : string) : string :=
  match n, s with
  | S k, String c rest => String c (take k rest)
  | _, _ => EmptyString
  end.

(** [s.startswith(p)]. *)
Definition startswith (s p : string) : bool := String.prefix p s.

(** [str(n)] for a non-negative [int]. *)
Definition of_nat (n : nat) : string := NilEmpty.string_of_uint (Nat.to_uint n).

(** How an f-string renders a value that may be [None]. *)
Definition of_option (o : option string) : string :=
  match o with
  | Some s => s
  | None => "None"
  end.

(** Truth value of a string: non-empty. *)
Definition truthy (s : string) : bool := negb (String.eqb s "").

End PyStr.

(** ** Data model *)

(** A [float] of the location table: the handler only tests it for truth
    (non-zero) and prints it, so it is kept as its printed form together
    with the truth value. *)
Record PyFloat := { float_repr : string; float_truthy : bool }.

Module LocationInfo.
Record t := mk {
  latitude : option PyFloat;
  longitude : option PyFloat;
  address : option string;
  landmark : option string;
  cell_tower_id : option string;
  network_provider : option string
}.
End LocationInfo.

Module User.
Record t := mk {
  phone_number : string;
  name : string;
  location : string;
  registration_date : string
}.
End User.

Module EmergencyReport.
Record t := mk {
  session_id : string;
  phone_number : string;
  emergency_type : string;
  timestamp : string;
  location : LocationInfo.t;
  reference_id : string;
  status : string
}.
End EmergencyReport.

(** One call of [sms.send(message, recipients, sender_id=...)]. *)
Record SmsCall := {
  sms_message : string;
  sms_recipients : list string;
  sms_sender : option string
}.

(** The gateway answers, or raises. *)
Inductive SmsOutcome :=
| SmsSent (response : string)
| SmsRaised (error : string).

(** What a request sees of the outside world. *)
Record Env := {
  now : string;                          (* datetime.now().isoformat() *)
  AFRICAS_TALKING_SENDER_ID : string;    (* os.getenv(..., "KASA") *)
  sms_send : SmsCall -> SmsOutcome
}.

(** The module-level globals [ussd_session_manager.sessions], [users_db]
    and [emergency_reports], and the calls made on the gateway so far
    (latest last). *)
Record Store := {
  sessions : gmap string (gmap string string);
  users_db : list (string * User.t);
  emergency_reports : gmap string EmergencyReport.t;
  sms_calls : list SmsCall
}.

Definition empty_store : Store :=
  {| sessions := ∅; users_db := []; emergency_reports := ∅; sms_calls := [] |}.

Definition set_sessions (f : gmap string (gmap string string) -> gmap string (gmap string string))
    (st : Store) : Store :=
  {| sessions := f (sessions st); users_db := users_db st;
     emergency_reports := emergency_reports st; sms_calls := sms_calls st |}.

Definition set_users_db (f : list (string * User.t) -> list (string * User.t))
    (st : Store) : Store :=
  {| sessions := sessions st; users_db := f (users_db st);
     emergency_reports := emergency_reports st; sms_calls := sms_calls st |}.

Definition set_emergency_reports
    (f : gmap string EmergencyReport.t -> gmap string EmergencyReport.t)
    (st : Store) : Store :=
  {| sessions := sessions st; users_db := users_db st;
     emergency_reports := f (emergency_reports st); sms_calls := sms_calls st |}.

Definition log_sms_call (c : SmsCall) (st : Store) : Store :=
  {| sessions := sessions st; users_db := users_db st;
     emergency_reports := emergency_reports st; sms_calls := sms_calls st ++ [c] |}.

(** ** Insertion-ordered dictionary ([users_db]) *)

Module PyDict.
Section Dict.
Context {V : Type}.

(** [d.get(k)]. *)
Fixpoint get (k : string) (d : list (string * V)) : option V :=
  match d with
  | [] => None
  | (k', v) :: rest => if String.eqb k' k then Some v else get k rest
  end.

(** [d[k] = v]: a known key keeps its place, a new key goes last. *)
Fixpoint set (k : string) (v : V) (d : list (string * V)) : list (string * V) :=
  match d with
  | [] => [(k, v)]
  | (k', v') :: rest =>
      if String.eqb k' k then (k, v) :: rest else (k', v') :: set k v rest
  end.

End Dict.
End PyDict.

(** ** Exceptions and the state monad *)

Inductive PyExc :=
| ValidationError (field : string)   (* pydantic: a [str] field given [None] *)
| GatewayError (error : string).     (* whatever [sms.send] raises *)

Inductive Result (A : Type) :=
| Ok (a : A)
| Raised (e : PyExc).
Arguments Ok {A} a.
Arguments Raised {A} e.

Definition M (A : Type) : Type := Store -> Result A * Store.

Definition ret {A} (a : A) : M A := fun st => (Ok a, st).

Definition raise {A} (e : PyExc) : M A := fun st => (Raised e, st).

Definition bind {A B} (m : M A) (k : A -> M B) : M B :=
  fun st =>
    match m st with
    | (Ok a, st') => k a st'
    | (Raised e, st') => (Raised e, st')
    end.

(** [try: m  except Exception as e: h e]. *)
Definition try_except {A} (m : M A) (h : PyExc -> M A) : M A :=
  fun st =>
    match m st with
    | (Ok a, st') => (Ok a, st')
    | (Raised e, st') => h e st'
    end.

Definition gets {A} (f : Store -> A) : M A := fun st => (Ok (f st), st).

Definition modify (f : Store -> Store) : M unit := fun st => (Ok tt, f st).

(** The monad structure, for stdpp's [x ← m; k] and [m;; k]. *)
#[global] Instance M_ret : MRet M := @ret.
#[global] Instance M_bind : MBind M := fun A B k m => bind m k.

(** ** [class USSDSessionState] *)

Module USSDSessionState.

(** [self.sessions.get(session_id, {})].  When the entry exists the caller
    gets the stored dictionary itself; the handlers never read a key of it
    after writing that key, so handing out its value is enough. *)
Definition get_session (session_id : string) : M (gmap string string) :=
  gets (fun st => default ∅ (sessions st !! session_id)).

Definition set_session (session_id : string) (data : gmap string string) : M unit :=
  modify (set_sessions (insert session_id data)).

(** [if session_id in self.sessions: del self.sessions[session_id]] *)
Definition clear_session (session_id : string) : M unit :=
  modify (set_sessions (delete session_id)).

(** A missing entry is first created empty, then the key is written. *)
Definition update_session (session_id key value : string) : M unit :=
  modify (set_sessions (fun ss =>
    let ss' := match ss !! session_id with
               | Some _ => ss
               | None => <[session_id := ∅]> ss
               end in
    <[session_id := <[key := value]> (default ∅ (ss' !! session_id))]> ss')).

End USSDSessionState.

(** ** [class USSDSession]: the screens *)

Definition LF : string := String "010"%char EmptyString.

Module USSDSession.

Definition get_main_menu : string :=
  "CON Welcome to KASA - Local Alert System" +:+ LF +:+
  "1. Send Emergency Alert" +:+ LF +:+
  "2. Register User" +:+ LF +:+
  "3. View System Status" +:+ LF +:+
  "4. Help" +:+ LF +:+
  "0. Exit".

Definition get_emergency_menu : string :=
  "CON Select Emergency Type:" +:+ LF +:+
  "1. Fire Emergency" +:+ LF +:+
  "2. Medical Emergency" +:+ LF +:+
  "3. Security Alert" +:+ LF +:+
  "4. Natural Disaster" +:+ LF +:+
  "0. Back to Main Menu".

Definition get_confirmation_menu (alert_type : string) : string :=
  "CON Confirm sending " +:+ alert_type +:+ "?" +:+ LF +:+
  "1. Yes, Send Alert" +:+ LF +:+ "2. No, Cancel" +:+ LF +:+ "0. Main Menu".

Definition get_help_menu : string :=
  "CON KASA Help:" +:+ LF +:+
  "- Dial this code to send alerts" +:+ LF +:+
  "- Alerts are sent to registered contacts" +:+ LF +:+
  "- For emergencies, call 999" +:+ LF +:+
  "0. Back to Main Menu".

Definition get_registration_name_prompt : string := "CON Enter your full name:".

Definition get_registration_location_prompt (name : string) : string :=
  "CON Hello " +:+ name +:+ "!" +:+ LF +:+ "Enter your location/area:".

(** The wizard calls this with [session_data.get(...)], which may be
    [None]; the f-string then prints "None". *)
Definition get_registration_confirmation (name location : option string) : string :=
  "CON Confirm registration:" +:+ LF +:+
  "Name: " +:+ PyStr.of_option name +:+ LF +:+
  "Location: " +:+ PyStr.of_option location +:+ LF +:+
  "1. Confirm" +:+ LF +:+ "2. Cancel" +:+ LF +:+ "0. Main Menu".

End USSDSession.

(** ** Location of a caller *)

Definition location_map : list (string * LocationInfo.t) :=
  [ ("+254711",
     LocationInfo.mk (Some {| float_repr := "-1.2921"; float_truthy := true |})
                     (Some {| float_repr := "36.8219"; float_truthy := true |})
                     (Some "Nairobi Central Business District")
                     (Some "Near Kenyatta Avenue") (Some "NRB_001") (Some "Safaricom"));
    ("+254712",
     LocationInfo.mk (Some {| float_repr := "-1.3032"; float_truthy := true |})
                     (Some {| float_repr := "36.7073"; float_truthy := true |})
                     (Some "Westlands, Nairobi")
                     (Some "Near Sarit Centre") (Some "WLD_002") (Some "Safaricom"));
    ("+254720",
     LocationInfo.mk (Some {| float_repr := "-1.2833"; float_truthy := true |})
                     (Some {| float_repr := "36.8167"; float_truthy := true |})
                     (Some "Kilimani, Nairobi")
                     (Some "Near Yaya Centre") (Some "KLM_003") (Some "Airtel")) ].

Definition default_location : LocationInfo.t :=
  LocationInfo.mk None None
    (Some "Location being determined via cell tower triangulation")
    (Some "Emergency services dispatched") None (Some "Detecting...").

(** The first prefix of the table the number starts with, else the default. *)
Definition get_location_from_phone (phone_number : string) : LocationInfo.t :=
  match List.find (fun entry => PyStr.startswith phone_number (fst entry)) location_map with
  | Some (_, location) => location
  | None => default_location
  end.

Definition opt_truthy (o : option string) : bool :=
  match o with
  | Some s => PyStr.truthy s
  | None => false
  end.

Definition float_opt_truthy (o : option PyFloat) : bool :=
  match o with
  | Some f => float_truthy f
  | None => false
  end.

Definition format_location_for_sms (location : LocationInfo.t) : string :=
  let parts :=
    (if opt_truthy (LocationInfo.address location)
     then ["📍" +:+ PyStr.of_option (LocationInfo.address location)] else []) ++
    (if opt_truthy (LocationInfo.landmark location)
     then ["🏢" +:+ PyStr.of_option (LocationInfo.landmark location)] else []) ++
    (if float_opt_truthy (LocationInfo.latitude location)
        && float_opt_truthy (LocationInfo.longitude location)
     then ["GPS:" +:+ from_option float_repr "None" (LocationInfo.latitude location) +:+ ","
             +:+ from_option float_repr "None" (LocationInfo.longitude location)]
     else []) in
  match parts with
  | [] => "Location: Being determined"
  | _ => String.concat " | " parts
  end.

(** ** User management *)

(** [user.location.lower() == location.lower()], over [users_db.items()]
    in insertion order. *)
Definition get_users_by_location (location : string) (st : Store) : list User.t :=
  List.filter
    (fun user => String.eqb (PyStr.lower (User.location user)) (PyStr.lower location))
    (map snd (users_db st)).

(** The dictionary [send_alert_to_location] returns; the keys "location"
    and "response" of the success case are not read by the handler. *)
Record AlertResult := {
  alert_status : string;
  alert_message : string;
  sent_count : nat;
  alert_recipients : list string
}.

(** [sms.send(...)]: the call is recorded, then the gateway answers or
    raises. *)
Definition sms_send_call (env : Env) (call : SmsCall) : M string :=
  modify (log_sms_call call);;
  match sms_send env call with
  | SmsSent response => mret response
  | SmsRaised error => raise (GatewayError error)
  end.

(** [str(e)]; only what the gateway raises reaches it. *)
Definition exc_str (e : PyExc) : string :=
  match e with
  | ValidationError field => field
  | GatewayError error => error
  end.

(** [f"[KASA LOCATION ALERT - {location.upper()}] {message}"] *)
Definition formatted_message_of (location message : string) : string :=
  "[KASA LOCATION ALERT - " +:+ PyStr.upper location +:+ "] " +:+ message.

Definition send_alert_to_location (env : Env) (location message : string) : M AlertResult :=
  users_in_location ← gets (get_users_by_location location);
  match users_in_location with
  | [] =>
      mret {| alert_status := "warning";
              alert_message := "No registered users found in " +:+ location;
              sent_count := 0; alert_recipients := [] |}
  | _ =>
      let phone_numbers := map User.phone_number users_in_location in
      let formatted_message := formatted_message_of location message in
      try_except
        (response ← (if PyStr.truthy (AFRICAS_TALKING_SENDER_ID env)
                     then sms_send_call env
                            {| sms_message := formatted_message;
                               sms_recipients := phone_numbers;
                               sms_sender := Some (AFRICAS_TALKING_SENDER_ID env) |}
                     else sms_send_call env
                            {| sms_message := formatted_message;
                               sms_recipients := phone_numbers;
                               sms_sender := None |});
         mret {| alert_status := "success";
                 alert_message := "Alert sent to " +:+ PyStr.of_nat (length phone_numbers)
                                    +:+ " users in " +:+ location;
                 sent_count := length phone_numbers;
                 alert_recipients := phone_numbers |})
        (fun e =>
           mret {| alert_status := "error";
                   alert_message := "Failed to send alert to " +:+ location +:+ ": "
                                      +:+ exc_str e;
                   sent_count := 0; alert_recipients := [] |})
  end.

(** [register_user(phone_number, name, location)].  The wizard passes
    [session_data.get('name')] and [session_data.get('location')], which
    are [None] when the key is missing; [User(...)] then fails pydantic's
    validation of its [str] fields before anything is stored. *)
Definition register_user (env : Env) (phone_number : string)
    (name location : option string) : M User.t :=
  match name, location with
  | Some name, Some location =>
      let user := User.mk phone_number name location (now env) in
      modify (set_users_db (PyDict.set phone_number user));;
      mret user
  | None, _ => raise (ValidationError "name")
  | Some _, None => raise (ValidationError "location")
  end.

Definition get_user_by_phone (phone_number : string) : M (option User.t) :=
  gets (fun st => PyDict.get phone_number (users_db st)).

(** ** The registration wizard and the request handler *)

Import USSDSessionState.

(** [o == s] for [o] the result of a [dict.get]. *)
Definition opt_is (o : option string) (s : string) : bool :=
  match o with
  | Some v => String.eqb v s
  | None => false
  end.

Definition emergency_types : list (string * string) :=
  [ ("1", "Fire Emergency"); ("2", "Medical Emergency");
    ("3", "Security Alert"); ("4", "Natural Disaster") ].

(** The body of the [try] of [handle_registration_flow].  [text_array] is
    received and never read. *)
Definition handle_registration_flow_body (env : Env)
    (session_id phone_number text : string) (text_array : list string)
    (session_data : gmap string string) : M string :=
  let step := session_data !! "step" in
  if opt_is step "name" then
    if PyStr.truthy text && PyStr.truthy (PyStr.strip text) then
      let name := PyStr.strip text in
      update_session session_id "name" name;;
      update_session session_id "step" "location";;
      mret (USSDSession.get_registration_location_prompt name)
    else mret "CON Please enter your full name:"
  else if opt_is step "location" then
    if PyStr.truthy text && PyStr.truthy (PyStr.strip text) then
      let location := PyStr.strip text in
      let name := session_data !! "name" in
      update_session session_id "location" location;;
      update_session session_id "step" "confirmation";;
      mret (USSDSession.get_registration_confirmation name (Some location))
    else mret "CON Please enter your location/area:"
  else if opt_is step "confirmation" then
    if String.eqb text "1" then
      let name := session_data !! "name" in
      let location := session_data !! "location" in
      user ← register_user env phone_number name location;
      clear_session session_id;;
      mret ("END Registration successful!" +:+ LF +:+
            "Name: " +:+ PyStr.of_option name +:+ LF +:+
            "Location: " +:+ PyStr.of_option location +:+ LF +:+
            "Phone: " +:+ phone_number +:+ LF +:+
            "You can now receive location alerts!")
    else if String.eqb text "2" then
      clear_session session_id;;
      mret "END Registration cancelled."
    else if String.eqb text "0" then
      clear_session session_id;;
      mret USSDSession.get_main_menu
    else
      let name := session_data !! "name" in
      let location := session_data !! "location" in
      mret (USSDSession.get_registration_confirmation name location)
  else
    clear_session session_id;;
    mret "END Registration error. Please try again.".

Definition handle_registration_flow (env : Env)
    (session_id phone_number text : string) (text_array : list string)
    (session_data : gmap string string) : M string :=
  try_except
    (handle_registration_flow_body env session_id phone_number text text_array session_data)
    (fun e =>
       clear_session session_id;;
       mret "END Registration error. Please try again later.").

(** "Default response for unhandled cases": where the branches of the
    handler that return nothing end up. *)
Definition default_response (sessionId : string) : M string :=
  clear_session sessionId;;
  mret "END Session ended. Dial again to restart.".

(** [f"EMR-{sessionId[:8]}"] *)
Definition reference_id_of (sessionId : string) : string :=
  "EMR-" +:+ PyStr.take 8 sessionId.

(** The text sent to the users of the caller's location. *)
Definition alert_message_of (alert_type : string) (user : User.t) (phoneNumber : string)
    : string :=
  "EMERGENCY ALERT: " +:+ alert_type +:+ " reported in " +:+ User.location user
    +:+ ". From: " +:+ User.name user +:+ " (" +:+ phoneNumber
    +:+ "). Stay alert and safe!".

(** The report a confirmation creates. *)
Definition report_of (env : Env) (sessionId phoneNumber alert_type : string)
    : EmergencyReport.t :=
  EmergencyReport.mk sessionId phoneNumber alert_type (now env)
    (get_location_from_phone phoneNumber) (reference_id_of sessionId) "pending".

(** The third-level branch that confirms an alert of type [alert_type]. *)
Definition confirm_alert (env : Env) (sessionId phoneNumber alert_type : string) : M string :=
  user ← get_user_by_phone phoneNumber;
  let location := get_location_from_phone phoneNumber in
  let location_info := format_location_for_sms location in
  let reference_id := reference_id_of sessionId in
  let report := report_of env sessionId phoneNumber alert_type in
  modify (set_emergency_reports (insert reference_id report));;
  location_alert_result ←
    match user with
    | Some user =>
        let alert_message := alert_message_of alert_type user phoneNumber in
        result ← send_alert_to_location env (User.location user) alert_message;
        mret (Some result)
    | None => mret None
    end;
  clear_session sessionId;;
  let response_msg :=
    "END " +:+ alert_type +:+ " alert sent!" +:+ LF +:+
    "Reference: " +:+ reference_id +:+ LF +:+
    "Location: " +:+ location_info in
  let response_msg :=
    match location_alert_result with
    | Some result =>
        if String.eqb (alert_status result) "success"
        then response_msg +:+ LF +:+ "✓ " +:+ PyStr.of_nat (sent_count result)
               +:+ " local users notified"
        else response_msg
    | None => response_msg
    end in
  mret (response_msg +:+ LF +:+ "Stay safe!").

(** The routing on the navigation path, taken when no wizard is active. *)
Definition menu_dispatch (env : Env) (sessionId phoneNumber text : string)
    (text_array : list string) : M string :=
  if String.eqb text "" || String.eqb text "0" then
    clear_session sessionId;;
    mret USSDSession.get_main_menu
  else
    match text_array with
    | [_] =>                                     (* len(text_array) == 1 *)
        if String.eqb text "1" then mret USSDSession.get_emergency_menu
        else if String.eqb text "2" then
          existing_user ← get_user_by_phone phoneNumber;
          match existing_user with
          | Some existing_user =>
              mret ("END You are already registered!" +:+ LF +:+
                    "Name: " +:+ User.name existing_user +:+ LF +:+
                    "Location: " +:+ User.location existing_user +:+ LF +:+
                    "Registered: " +:+ PyStr.take 10 (User.registration_date existing_user))
          | None =>
              set_session sessionId
                (<["flow" := "registration"]>
                   (<["step" := "name"]> (<["phone" := phoneNumber]> ∅)));;
              mret USSDSession.get_registration_name_prompt
          end
        else if String.eqb text "3" then
          user_count ← gets (fun st => length (users_db st));
          mret ("END KASA System Status:" +:+ LF +:+
                "✓ SMS Service: Online" +:+ LF +:+
                "✓ Alert System: Active" +:+ LF +:+
                "✓ Registered Users: " +:+ PyStr.of_nat user_count +:+ LF +:+
                "✓ Last Updated: Now" +:+ LF +:+
                "System is operational.")
        else if String.eqb text "4" then mret USSDSession.get_help_menu
        else mret "END Invalid option. Please try again."
    | [t0; t1] =>                                (* len(text_array) == 2 *)
        if String.eqb t0 "1" then
          match PyDict.get t1 emergency_types with
          | Some alert_type => mret (USSDSession.get_confirmation_menu alert_type)
          | None =>
              if String.eqb t1 "0" then mret USSDSession.get_main_menu
              else mret "END Invalid emergency type."
          end
        else if String.eqb t0 "4" && String.eqb t1 "0" then
          mret USSDSession.get_main_menu
        else default_response sessionId
    | [t0; t1; t2] =>                            (* len(text_array) == 3 *)
        if String.eqb t0 "1" && String.eqb t2 "1" then
          match PyDict.get t1 emergency_types with
          | Some alert_type =>
              if PyStr.truthy alert_type
              then confirm_alert env sessionId phoneNumber alert_type
              else default_response sessionId
          | None => default_response sessionId
          end
        else if String.eqb t0 "1" && String.eqb t2 "2" then
          clear_session sessionId;;
          mret "END Alert cancelled. Stay safe!"
        else if String.eqb t0 "1" && String.eqb t2 "0" then
          mret USSDSession.get_main_menu
        else default_response sessionId
    | _ => default_response sessionId
    end.

(** [text.split('*') if text else ['']]: the navigation path. *)
Definition text_array_of (text : string) : list string :=
  if PyStr.truthy text then PyStr.split "*" text else [""].

(** The body of the [try] of [ussd_handler]. *)
Definition ussd_handler_body (env : Env)
    (sessionId serviceCode phoneNumber text : string) : M string :=
  session_data ← get_session sessionId;
  let text_array := text_array_of text in
  if opt_is (session_data !! "flow") "registration" then
    handle_registration_flow env sessionId phoneNumber text text_array session_data
  else menu_dispatch env sessionId phoneNumber text text_array.

Definition ussd_handler (env : Env)
    (sessionId serviceCode phoneNumber text : string) : M string :=
  try_except
    (ussd_handler_body env sessionId serviceCode phoneNumber text)
    (fun e =>
       clear_session sessionId;;
       mret "END System error. Please try again later.").

(** ** Requests and runs *)

Record Request := {
  sessionId : string;
  serviceCode : string;
  phoneNumber : string;
  text : string
}.

Definition serve (env : Env) (req : Request) : M string :=
  ussd_handler env (sessionId req) (serviceCode req) (phoneNumber req) (text req).

(** The store after a sequence of requests, and the response to each. *)
Fixpoint run (env : Env) (reqs : list Request) (st : Store) : list (Result string) * Store :=
  match reqs with
  | [] => ([], st)
  | req :: rest =>
      let '(r, st') := serve env req st in
      let '(rs, st'') := run env rest st' in
      (r :: rs, st'')
  end.

(** A gateway that delivers, and one that is down. *)
Definition env_up : Env :=
  {| now := "2025-06-27T10:15:00.000000"; AFRICAS_TALKING_SENDER_ID := "KASA";
     sms_send := fun _ => SmsSent "queued" |}.

Definition env_down : Env :=
  {| now := "2025-06-27T10:15:00.000000"; AFRICAS_TALKING_SENDER_ID := "KASA";
     sms_send := fun _ => SmsRaised "connection refused" |}.


(** ** Shapes of responses and of session entries *)

(** A response of the protocol starts with "CON " or with "END ". *)
Definition is_continue (response : string) : bool := String.prefix "CON " response.
Definition is_terminal (response : string) : bool := String.prefix "END " response.
Definition well_formed (response : string) : bool :=
  is_continue response || is_terminal response.

(** The entries the wizard works with. *)
Definition wizard_entry (data : gmap string string) : Prop :=
  data !! "flow" = Some "registration" /\
  (data !! "step" = Some "name" \/ data !! "step" = Some "location"
   \/ data !! "step" = Some "confirmation").

Definition sessions_wizard_only (st : Store) : Prop :=
  map_Forall (fun _ data => wizard_entry data) (sessions st).

(** The entry the handler stores when the wizard is entered. *)
Definition new_wizard_entry (phoneNumber : string) : gmap string string :=
  <["flow" := "registration"]> (<["step" := "name"]> (<["phone" := phoneNumber]> ∅)).

(** The stored dictionary of a session, as [get_session] hands it out. *)
Abbreviation session_of st sessionId :=
  (default (∅ : gmap string string) (sessions st !! sessionId)).

(** ** Terms in which the properties are stated *)

(** The gateway call [send_alert_to_location] makes for a caller [user]. *)
Definition alert_call_of (env : Env) (alert_type : string) (user : User.t)
    (phoneNumber : string) (st : Store) : SmsCall :=
  {| sms_message :=
       formatted_message_of (User.location user)
         (alert_message_of alert_type user phoneNumber);
     sms_recipients :=
       map User.phone_number (get_users_by_location (User.location user) st);
     sms_sender :=
       if PyStr.truthy (AFRICAS_TALKING_SENDER_ID env)
       then Some (AFRICAS_TALKING_SENDER_ID env) else None |}.

(** The acknowledgement of a confirmed alert, built as [confirm_alert]
    builds [response_msg]: [notified] is the count of the line that is
    added when the fan-out reports success. *)
Definition acknowledgement (alert_type sessionId phoneNumber : string)
    (notified : option nat) : string :=
  let response_msg :=
    "END " +:+ alert_type +:+ " alert sent!" +:+ LF +:+
    "Reference: " +:+ reference_id_of sessionId +:+ LF +:+
    "Location: " +:+ format_location_for_sms (get_location_from_phone phoneNumber) in
  let response_msg :=
    match notified with
    | Some n => response_msg +:+ LF +:+ "✓ " +:+ PyStr.of_nat n +:+ " local users notified"
    | None => response_msg
    end in
  response_msg +:+ LF +:+ "Stay safe!".

Definition fallback_response : string := "END Session ended. Dial again to restart.".
Definition system_error_response : string := "END System error. Please try again later.".
Definition registration_error_response : string :=
  "END Registration error. Please try again later.".

(** ** Scenarios *)

Definition request (sessionId phoneNumber text : string) : Request :=
  {| sessionId := sessionId; serviceCode := "*123#";
     phoneNumber := phoneNumber; text := text |}.

Definition user_at (phone name location : string) : string * User.t :=
  (phone, User.mk phone name location "2025-06-20T08:00:00.000000").

(** Two users in Westlands, spelt in two cases, and one elsewhere. *)
Definition westlands_store : Store :=
  {| sessions := ∅;
     users_db := [ user_at "+254712000001" "Amina" "Westlands";
                   user_at "+254712000002" "Brian" "westlands";
                   user_at "+254720000003" "Chege" "Kilimani" ];
     emergency_reports := ∅;
     sms_calls := [] |}.

(** A wizard entry at the confirmation step that lost its answers. *)
Definition corrupted_store : Store :=
  {| sessions :=
       <["s-lost" := <["flow" := "registration"]>
                       (<["step" := "confirmation"]>
                          (<["phone" := "+254733000009"]> ∅))]> ∅;
     users_db := []; emergency_reports := ∅; sms_calls := [] |}.

(** A wizard waiting for the confirmation of "Eve" from "Mombasa". *)
Definition confirming_store : Store :=
  {| sessions :=
       <["s-eve" := <["flow" := "registration"]>
                      (<["step" := "confirmation"]>
                         (<["phone" := "+254733000009"]>
                            (<["name" := "Eve"]> (<["location" := "Mombasa"]> ∅))))]> ∅;
     users_db := []; emergency_reports := ∅; sms_calls := [] |}.

(** A log that already holds the report of session "KASA-7777-a". *)
Definition reported_store : Store :=
  {| sessions := ∅; users_db := [];
     emergency_reports :=
       <["EMR-KASA-777" := report_of env_up "KASA-7777-a" "+254711000001" "Fire Emergency"]> ∅;
     sms_calls := [] |}.

(** One phone in two sessions: the first reaches the confirmation step,
    the second registers "Bob" meanwhile. *)
Definition race_requests : list Request :=
  [ request "sess-A" "+254733000009" "2";
    request "sess-A" "+254733000009" "Alice";
    request "sess-A" "+254733000009" "Nairobi";
    request "sess-B" "+254733000009" "2";
    request "sess-B" "+254733000009" "Bob";
    request "sess-B" "+254733000009" "Kisumu";
    request "sess-B" "+254733000009" "1" ].

(** The registration as a gateway sends it: every request carries the whole
    path typed so far. *)
Definition accumulated_requests (phoneNumber : string) : list Request :=
  [ request "sess-1" phoneNumber "2";
    request "sess-1" phoneNumber "2*Alice";
    request "sess-1" phoneNumber "2*Alice*Nairobi";
    request "sess-1" phoneNumber "2*Alice*Nairobi*1" ].

(** The same registration with only the latest answer in each request. *)
Definition keystroke_requests (phoneNumber : string) : list Request :=
  [ request "sess-1" phoneNumber "2";
    request "sess-1" phoneNumber "Alice";
    request "sess-1" phoneNumber "Nairobi";
    request "sess-1" phoneNumber "1" ].

(** ** Request validation ([class AlertRequest]) *)

(** What a pydantic field validator gives: the value to store, or the
    message of the [ValueError] it raises. *)
Inductive Checked (A : Type) :=
| Accepted (value : A)
| ValueError (message : string).
Arguments Accepted {A} value.
Arguments ValueError {A} message.

Module AlertRequest.

Definition validate_message (v : string) : Checked string :=
  if negb (PyStr.truthy v) || negb (PyStr.truthy (PyStr.strip v)) then
    ValueError "Message cannot be empty"
  else if 160 <? String.length (PyStr.strip v) then
    ValueError "Message cannot exceed 160 characters"
  else Accepted (PyStr.strip v).

(** The [for phone in v] loop: the error of the first phone that fails. *)
Fixpoint check_phones (v : list string) : option string :=
  match v with
  | [] => None
  | phone :: rest =>
      if negb (PyStr.startswith phone "+") then
        Some ("Phone number " +:+ phone +:+ " must include country code (e.g., +254...)")
      else if String.length phone <? 10 then
        Some ("Phone number " +:+ phone +:+ " appears to be too short")
      else check_phones rest
  end.

Definition validate_recipients (v : list string) : Checked (list string) :=
  match v with
  | [] => ValueError "Recipients list cannot be empty"
  | _ =>
      match check_phones v with
      | Some message => ValueError message
      | None => Accepted v
      end
  end.

End AlertRequest.

(** ** The HTTP endpoints on the user table *)

(** A JSON answer, or the [HTTPException] the endpoint raises. *)
Inductive HttpResult (A : Type) :=
| HttpOk (body : A)
| HttpError (status_code : nat) (detail : string).
Arguments HttpOk {A} body.
Arguments HttpError {A} status_code detail.

(** [POST /send-location-alert]. *)
Definition send_location_alert_endpoint (env : Env) (location message : string)
    : Store -> HttpResult AlertResult * Store :=
  fun st =>
    if negb (PyStr.truthy message) || negb (PyStr.truthy (PyStr.strip message)) then
      (HttpError 400 "Message cannot be empty", st)
    else if 140 <? String.length (PyStr.strip message) then
      (HttpError 400 "Message too long (max 140 characters)", st)
    else
      match send_alert_to_location env location (PyStr.strip message) st with
      | (Ok result, st') => (HttpOk result, st')
      | (Raised e, st') => (HttpError 500 ("Error sending alert: " +:+ exc_str e), st')
      end.

(** The dictionary the endpoints show for a user. *)
Module UserEntry.
Record t := mk {
  name : string;
  phone : string;
  location : string;
  registration_date : string
}.
End UserEntry.

Definition user_entry (user : User.t) : UserEntry.t :=
  UserEntry.mk (User.name user) (User.phone_number user) (User.location user)
               (User.registration_date user).

(** "Group users by location for summary": the second loop of
    [get_all_users], on the dictionary built so far. *)
Fixpoint count_locations (users_list : list UserEntry.t)
    (location_summary : list (string * nat)) : list (string * nat) :=
  match users_list with
  | [] => location_summary
  | user :: rest =>
      let location := UserEntry.location user in
      let location_summary :=
        match PyDict.get location location_summary with
        | None => PyDict.set location 0 location_summary
        | Some _ => location_summary
        end in
      let location_summary :=
        PyDict.set location (default 0 (PyDict.get location location_summary) + 1)
                   location_summary in
      count_locations rest location_summary
  end.

Module AllUsers.
Record t := mk {
  total_users : nat;
  users : list UserEntry.t;
  location_summary : list (string * nat);
  last_updated : string
}.
End AllUsers.

(** [GET /users]. *)
Definition get_all_users (env : Env) (st : Store) : AllUsers.t :=
  let users_list := map (fun item => user_entry (snd item)) (users_db st) in
  let location_summary := count_locations users_list [] in
  AllUsers.mk (length users_list) users_list location_summary (now env).

(** ** The import loop of [upload_users_csv] *)

(** A row as [csv.DictReader] hands it out: a column the line is too short
    for is [None]. *)
Module CsvRow.
Record t := mk {
  name : option string;
  phone : option string;
  location : option string
}.
End CsvRow.

(** The three accumulators of the loop. *)
Module ImportAcc.
Record t := mk {
  imported_users : list UserEntry.t;
  errors : list string;
  duplicate_count : nat
}.
End ImportAcc.

Definition import_start : ImportAcc.t := ImportAcc.mk [] [] 0.

Definition add_error (message : string) (acc : ImportAcc.t) : ImportAcc.t :=
  ImportAcc.mk (ImportAcc.imported_users acc) (ImportAcc.errors acc ++ [message])
            (ImportAcc.duplicate_count acc).

Definition row_label (row_num : nat) : string := "Row " +:+ PyStr.of_nat row_num +:+ ": ".

(** One turn of the loop.  [.strip()] on a missing column raises, and the
    [except] of the loop records the row as an error. *)
Definition import_row (env : Env) (row_num : nat) (row : CsvRow.t) (acc : ImportAcc.t)
    : Store -> ImportAcc.t * Store :=
  fun st =>
    match CsvRow.name row, CsvRow.phone row, CsvRow.location row with
    | Some raw_name, Some raw_phone, Some raw_location =>
        let name := PyStr.strip raw_name in
        let phone := PyStr.strip raw_phone in
        let location := PyStr.strip raw_location in
        if negb (PyStr.truthy name) || negb (PyStr.truthy phone)
           || negb (PyStr.truthy location) then
          (add_error (row_label row_num +:+ "Missing required fields") acc, st)
        else if negb (PyStr.startswith phone "+") then
          (add_error (row_label row_num +:+
                      "Phone number must include country code (e.g., +254...)") acc, st)
        else
          match PyDict.get phone (users_db st) with
          | Some _ =>
              (ImportAcc.mk (ImportAcc.imported_users acc) (ImportAcc.errors acc)
                         (ImportAcc.duplicate_count acc + 1), st)
          | None =>
              match register_user env phone (Some name) (Some location) st with
              | (Ok user, st') =>
                  (ImportAcc.mk (ImportAcc.imported_users acc ++ [user_entry user])
                             (ImportAcc.errors acc) (ImportAcc.duplicate_count acc), st')
              | (Raised e, st') =>
                  (add_error (row_label row_num +:+ exc_str e) acc, st')
              end
          end
    | _, _, _ =>
        (add_error (row_label row_num +:+
                    "'NoneType' object has no attribute 'strip'") acc, st)
    end.

(** [for row_num, row in enumerate(csv_reader, start=...)]. *)
Fixpoint import_rows (env : Env) (row_num : nat) (rows : list CsvRow.t) (acc : ImportAcc.t)
    : Store -> ImportAcc.t * Store :=
  fun st =>
    match rows with
    | [] => (acc, st)
    | row :: rest =>
        let '(acc', st') := import_row env row_num row acc st in
        import_rows env (S row_num) rest acc' st'
    end.

(** The answer of [upload_users_csv] once the rows are read. *)
Module UploadSummary.
Record t := mk {
  imported_count : nat;
  error_count : nat;
  duplicate_count : nat;
  total_users_now : nat;
  imported_users : list UserEntry.t;
  errors : list string;
  has_more_errors : bool
}.
End UploadSummary.

Definition upload_rows (env : Env) (rows : list CsvRow.t)
    : Store -> UploadSummary.t * Store :=
  fun st =>
    let '(acc, st') := import_rows env 2 rows import_start st in
    (UploadSummary.mk (length (ImportAcc.imported_users acc)) (length (ImportAcc.errors acc))
       (ImportAcc.duplicate_count acc) (length (users_db st'))
       (ImportAcc.imported_users acc) (firstn 10 (ImportAcc.errors acc))
       (10 <? length (ImportAcc.errors acc)),
     st').

(** ** Shapes of strings and of the user table *)

(** A string that does not begin with a blank. *)
Definition starts_clean (s : string) : Prop :=
  match s with
  | EmptyString => True
  | String c _ => PyStr.isspace c = false
  end.

(** Every record sits under its own phone number, once. *)
Definition users_db_consistent (st : Store) : Prop :=
  NoDup (map fst (users_db st)) /\
  Forall (fun item => User.phone_number (snd item) = fst item) (users_db st).

Definition sum_counts (d : list (string * nat)) : nat :=
  fold_right (fun item total => snd item + total) 0 d.

(** The users whose location is exactly [location], case included. *)
Definition users_with_location (location : string) (st : Store) : list User.t :=
  List.filter (fun user => String.eqb (User.location user) location)
              (map snd (users_db st)).

(** An imported entry as the import leaves it: found under its phone with
    its own fields, with a country code and nothing empty. *)
Definition imported_ok (db : list (string * User.t)) (entry : UserEntry.t) : Prop :=
  PyDict.get (UserEntry.phone entry) db =
    Some (User.mk (UserEntry.phone entry) (UserEntry.name entry)
                  (UserEntry.location entry) (UserEntry.registration_date entry)) /\
  PyStr.startswith (UserEntry.phone entry) "+" = true /\
  UserEntry.name entry <> "" /\ UserEntry.location entry <> "" /\
  PyStr.strip (UserEntry.name entry) = UserEntry.name entry /\
  PyStr.strip (UserEntry.phone entry) = UserEntry.phone entry /\
  PyStr.strip (UserEntry.location entry) = UserEntry.location entry.

(** The entry of a wizard waiting for the location of "Eve". *)
Definition locating_entry : gmap string string :=
  <["flow" := "registration"]>
    (<["step" := "location"]>
       (<["phone" := "+254733000009"]> (<["name" := "Eve"]> ∅))).

Definition locating_store : Store :=
  {| sessions := <["s-eve" := locating_entry]> ∅;
     users_db := []; emergency_reports := ∅; sms_calls := [] |}.

(** A file of three rows: a new user, a user of [westlands_store], and a
    row without a country code. *)
Definition sample_rows : list CsvRow.t :=
  [ CsvRow.mk (Some " Dalila ") (Some "+254744000004") (Some "Karen");
    CsvRow.mk (Some "Amina B") (Some "+254712000001") (Some "Lavington");
    CsvRow.mk (Some "Evans") (Some "0712000005") (Some "Karen") ].

(** * Properties *)

(** ** Running the monad *)

Ltac run_m :=
  cbv [mbind M_bind bind mret M_ret ret gets modify raise try_except
       get_session set_session clear_session update_session
       get_user_by_phone default_response] in *;
  cbn [fst snd] in *.

Lemma bind_ok {A B} (m : M A) (k : A -> M B) st a st' :
  m st = (Ok a, st') -> (m ≫= k) st = k a st'.
Proof. intros H. run_m. now rewrite H. Qed.

Lemma bind_raised {A B} (m : M A) (k : A -> M B) st e st' :
  m st = (Raised e, st') -> (m ≫= k) st = (Raised e, st').
Proof. intros H. run_m. now rewrite H. Qed.

Lemma try_except_ok {A} (m : M A) h st a st' :
  m st = (Ok a, st') -> try_except m h st = (Ok a, st').
Proof. intros H. unfold try_except. now rewrite H. Qed.

Lemma try_except_raised {A} (m : M A) h st e st' :
  m st = (Raised e, st') -> try_except m h st = h e st'.
Proof. intros H. unfold try_except. now rewrite H. Qed.

(** ** Strings *)

Lemma split_not_nil sep s : PyStr.split sep s <> [].
Proof.
  destruct s as [|c s]; cbn; [discriminate|].
  destruct (Ascii.eqb c sep); [discriminate|].
  destruct (PyStr.split sep s); discriminate.
Qed.

Lemma join_cons sep p q ps :
  PyStr.join sep (p :: q :: ps) = p +:+ String sep (PyStr.join sep (q :: ps)).
Proof. reflexivity. Qed.

(** Joining the segments gives the text back. *)
Lemma join_split sep s : PyStr.join sep (PyStr.split sep s) = s.
Proof.
  induction s as [|c s IH]; [reflexivity|].
  cbn [PyStr.split].
  destruct (Ascii.eqb_spec c sep) as [->|Hne].
  - pose proof (split_not_nil sep s) as Hnil.
    destruct (PyStr.split sep s) as [|q ps] eqn:E; [congruence|].
    rewrite join_cons, IH. reflexivity.
  - pose proof (split_not_nil sep s) as Hnil.
    destruct (PyStr.split sep s) as [|q ps] eqn:E; [congruence|].
    destruct ps as [|q' ps].
    + cbn in *. now rewrite IH.
    + rewrite join_cons in IH |- *. rewrite <- IH. reflexivity.
Qed.

Lemma truthy_true s : PyStr.truthy s = true <-> s <> "".
Proof.
  unfold PyStr.truthy. destruct (String.eqb_spec s ""); cbn; split; congruence.
Qed.

Lemma text_array_of_join text : PyStr.join "*" (text_array_of text) = text.
Proof.
  unfold text_array_of. destruct (PyStr.truthy text) eqn:E.
  - apply join_split.
  - cbn. unfold PyStr.truthy in E. destruct (String.eqb_spec text ""); [easy|discriminate].
Qed.

(** A prefix of [s] is a prefix of [s] followed by anything. *)
Lemma prefix_append p s t : String.prefix p s = true -> String.prefix p (s +:+ t) = true.
Proof.
  revert s. induction p as [|c p IH]; intros [|d s]; cbn; try easy.
  - intros _. now destruct t.
  - change (String d s +:+ t) with (String d (s +:+ t)). cbn.
    destruct (ascii_dec c d); [apply IH|easy].
Qed.

Lemma is_terminal_append s t : is_terminal s = true -> is_terminal (s +:+ t) = true.
Proof. apply prefix_append. Qed.

Lemma is_continue_append s t : is_continue s = true -> is_continue (s +:+ t) = true.
Proof. apply prefix_append. Qed.

Lemma terminal_well_formed s : is_terminal s = true -> well_formed s = true.
Proof. unfold well_formed. intros ->. apply orb_true_r. Qed.

Lemma continue_well_formed s : is_continue s = true -> well_formed s = true.
Proof. unfold well_formed. now intros ->. Qed.

(** A response is not both. *)
Lemma terminal_not_continue s : is_terminal s = true -> is_continue s = false.
Proof.
  unfold is_terminal, is_continue.
  destruct s as [|c s]; [easy|].
  change (String.prefix "END " (String c s))
    with (if ascii_dec "E" c then String.prefix "ND " s else false).
  change (String.prefix "CON " (String c s))
    with (if ascii_dec "C" c then String.prefix "ON " s else false).
  destruct (ascii_dec "E" c), (ascii_dec "C" c); try easy; congruence.
Qed.

Ltac prefix_tac :=
  repeat first [ apply is_terminal_append | apply is_continue_append ];
  reflexivity.

(** ** Collaborators: what they return and what they leave alone *)

Ltac case_cond :=
  match goal with
  | |- context [if ?b then _ else _] => destruct b eqn:?
  | |- context [match ?x with _ => _ end] => destruct x eqn:?
  end.

(** [send_alert_to_location] swallows the gateway's exception and touches
    nothing but the record of gateway calls. *)
Lemma send_alert_to_location_ok env location message st :
  exists result st',
    send_alert_to_location env location message st = (Ok result, st') /\
    sessions st' = sessions st /\ users_db st' = users_db st /\
    emergency_reports st' = emergency_reports st.
Proof.
  unfold send_alert_to_location, sms_send_call. run_m.
  destruct (get_users_by_location location st);
    [ eauto 10 | destruct (PyStr.truthy _); destruct (sms_send env _); eauto 10 ].
Qed.

Lemma emergency_type_truthy k alert_type :
  PyDict.get k emergency_types = Some alert_type -> PyStr.truthy alert_type = true.
Proof.
  cbn. repeat case_cond; intros [= <-]; reflexivity.
Qed.

(** Confirming an alert always ends the session with an acknowledgement. *)
Lemma confirm_alert_ok env sessionId phoneNumber alert_type st :
  exists response st',
    confirm_alert env sessionId phoneNumber alert_type st = (Ok response, st') /\
    is_terminal response = true /\
    sessions st' = delete sessionId (sessions st) /\
    users_db st' = users_db st.
Proof.
  unfold confirm_alert. run_m.
  destruct (PyDict.get phoneNumber (users_db st)) as [user|].
  - match goal with
    | |- context [send_alert_to_location ?e ?l ?m ?s] =>
        destruct (send_alert_to_location_ok e l m s) as (r & st1 & -> & Hs & Hu & _)
    end.
    cbn. destruct (String.eqb _ _);
      (eexists _, _; split; [reflexivity|]; cbn [sessions users_db set_sessions];
       rewrite Hs, Hu; split; [prefix_tac | auto]).
  - cbn. eexists _, _; split; [reflexivity|]. split; [prefix_tac | auto].
Qed.

(** ** Every path answers, and answers in the protocol *)

Ltac wf_tac :=
  first [ apply terminal_well_formed; prefix_tac
        | apply continue_well_formed; prefix_tac ].

Ltac answer_tac := eexists _, _; split; [reflexivity | try wf_tac].

(** The case analysis of the wizard, in the order of the source. *)
Ltac wizard_split session_data text :=
  unfold handle_registration_flow, handle_registration_flow_body, register_user;
  destruct (opt_is (session_data !! "step") "name") eqn:Hname;
  [ destruct (PyStr.truthy text && PyStr.truthy (PyStr.strip text)) eqn:Htext
  | destruct (opt_is (session_data !! "step") "location") eqn:Hlocation;
    [ destruct (PyStr.truthy text && PyStr.truthy (PyStr.strip text)) eqn:Htext
    | destruct (opt_is (session_data !! "step") "confirmation") eqn:Hconfirmation;
      [ destruct (String.eqb text "1") eqn:H1;
        [ destruct (session_data !! "name") as [name|] eqn:Hn;
          [ destruct (session_data !! "location") as [location|] eqn:Hl | ]
        | destruct (String.eqb text "2") eqn:H2;
          [ | destruct (String.eqb text "0") eqn:H0 ] ]
      | ] ] ].

Ltac wizard_cases session_data text :=
  wizard_split session_data text; run_m; cbn [fst snd PyStr.of_option].

(** The case analysis of the menu routing, in the order of the source. *)
Ltac menu_cases text text_array :=
  unfold menu_dispatch;
  destruct (String.eqb text "" || String.eqb text "0") eqn:Hroot;
  [ | destruct text_array as [|t0 [|t1 [|t2 [|t3 rest]]]];
      [ | destruct (String.eqb text "1") eqn:H1;
          [ | destruct (String.eqb text "2") eqn:H2;
              [ | destruct (String.eqb text "3") eqn:H3;
                  [ | destruct (String.eqb text "4") eqn:H4 ] ] ]
        | destruct (String.eqb t0 "1") eqn:Ht0;
          [ destruct (PyDict.get t1 emergency_types) as [alert_type|] eqn:Htype;
            [ | destruct (String.eqb t1 "0") eqn:Ht1 ]
          | destruct (String.eqb t0 "4" && String.eqb t1 "0") eqn:Hhelp ]
        | destruct (String.eqb t0 "1" && String.eqb t2 "1") eqn:Hconfirm;
          [ destruct (PyDict.get t1 emergency_types) as [alert_type|] eqn:Htype;
            [ rewrite (emergency_type_truthy _ _ Htype) | ]
          | destruct (String.eqb t0 "1" && String.eqb t2 "2") eqn:Hcancel;
            [ | destruct (String.eqb t0 "1" && String.eqb t2 "0") eqn:Hback ] ]
        | ] ].

Lemma handle_registration_flow_well_formed env session_id phone_number text text_array
    session_data st :
  exists response st',
    handle_registration_flow env session_id phone_number text text_array session_data st
      = (Ok response, st') /\
    well_formed response = true.
Proof.
  wizard_cases session_data text; answer_tac.
Qed.

Lemma menu_dispatch_well_formed env sessionId phoneNumber text text_array st :
  exists response st',
    menu_dispatch env sessionId phoneNumber text text_array st = (Ok response, st') /\
    well_formed response = true.
Proof.
  menu_cases text text_array; try (run_m; answer_tac).
  - run_m. destruct (PyDict.get phoneNumber (users_db st)); answer_tac.
  - destruct (confirm_alert_ok env sessionId phoneNumber alert_type st)
      as (response & st' & -> & Hterm & _).
    exists response, st'. split; [reflexivity|]. now apply terminal_well_formed.
Qed.

(** The handler is its dispatch: neither branch lets an exception reach
    the outer [except]. *)
Lemma ussd_handler_dispatch env sessionId serviceCode phoneNumber text st :
  ussd_handler env sessionId serviceCode phoneNumber text st =
    if opt_is (session_of st sessionId !! "flow") "registration"
    then handle_registration_flow env sessionId phoneNumber text (text_array_of text)
           (session_of st sessionId) st
    else menu_dispatch env sessionId phoneNumber text (text_array_of text) st.
Proof.
  unfold ussd_handler, ussd_handler_body.
  cbv [mbind M_bind bind try_except get_session gets]. cbn [fst snd].
  destruct (opt_is _ "registration").
  - destruct (handle_registration_flow_well_formed env sessionId phoneNumber text
                (text_array_of text) (session_of st sessionId) st)
      as (r & st' & -> & _); reflexivity.
  - destruct (menu_dispatch_well_formed env sessionId phoneNumber text
                (text_array_of text) st) as (r & st' & -> & _); reflexivity.
Qed.

(** The outer [except] of the handler, whatever the body: a raise becomes
    the system-error screen and the session is dropped. *)
Lemma system_error_guard (body : M string) sessionId st e st1 :
  body st = (Raised e, st1) ->
  try_except body
    (fun _ => clear_session sessionId;; mret "END System error. Please try again later.") st
  = (Ok "END System error. Please try again later.",
     set_sessions (delete sessionId) st1).
Proof. intros H. unfold try_except. rewrite H. reflexivity. Qed.

(** The handler returns, and returns a response of the protocol. *)
Lemma ussd_handler_returns env sessionId serviceCode phoneNumber text st :
  exists response st',
    ussd_handler env sessionId serviceCode phoneNumber text st = (Ok response, st') /\
    well_formed response = true.
Proof.
  rewrite ussd_handler_dispatch.
  destruct (opt_is _ "registration").
  - apply handle_registration_flow_well_formed.
  - apply menu_dispatch_well_formed.
Qed.

(** C5. Every string the USSD handler returns, whatever the session
    state, the navigation text and the phone number, and on the error
    paths too, starts with the four characters "CON " or with the four
    characters "END ": the handler always returns, and what it returns
    has one of the two prefixes. *)
Theorem ussd_handler_response_prefix env sessionId serviceCode phoneNumber text st :
  exists response st',
    ussd_handler env sessionId serviceCode phoneNumber text st = (Ok response, st') /\
    (String.prefix "CON " response = true \/ String.prefix "END " response = true).
Proof.
  destruct (ussd_handler_returns env sessionId serviceCode phoneNumber text st)
    as (r & st' & Hrun & Hwf).
  exists r, st'. split; [assumption|]. now apply orb_true_iff in Hwf.
Qed.

(** ** Failures *)

(** The wizard never calls the gateway and never writes a report. *)
Lemma handle_registration_flow_frame env session_id phone_number text text_array
    session_data st response st' :
  handle_registration_flow env session_id phone_number text text_array session_data st
    = (Ok response, st') ->
  sms_calls st' = sms_calls st /\ emergency_reports st' = emergency_reports st.
Proof.
  wizard_cases session_data text; intros [= <- <-]; split; reflexivity.
Qed.

(** Outside the confirmation of an alert the menu never calls the gateway. *)
Lemma menu_dispatch_gateway env sessionId phoneNumber text text_array st response st' :
  menu_dispatch env sessionId phoneNumber text text_array st = (Ok response, st') ->
  sms_calls st' = sms_calls st \/
  (is_terminal response = true /\ sessions st' = delete sessionId (sessions st)).
Proof.
  menu_cases text text_array; try (run_m; intros [= <- <-]; left; reflexivity).
  - run_m. destruct (PyDict.get phoneNumber (users_db st)); intros [= <- <-];
      left; reflexivity.
  - destruct (confirm_alert_ok env sessionId phoneNumber alert_type st)
      as (r & st1 & -> & Hterm & Hs & _).
    intros [= <- <-]. right. split; assumption.
Qed.

(** An exception of the wizard's body ends in its [except] clause. *)
Lemma handle_registration_flow_raised env session_id phone_number text text_array
    session_data st e st1 :
  handle_registration_flow_body env session_id phone_number text text_array session_data st
    = (Raised e, st1) ->
  handle_registration_flow env session_id phone_number text text_array session_data st
    = (Ok "END Registration error. Please try again later.",
       set_sessions (delete session_id) st1).
Proof.
  intros H. unfold handle_registration_flow, try_except. rewrite H. reflexivity.
Qed.

Lemma app_singleton_neq {A} (l : list A) x : l ++ [x] <> l.
Proof.
  intros H. apply (f_equal (@length A)) in H. rewrite length_app in H. cbn in H. lia.
Qed.

(** C6. The handler never lets an exception reach its caller: every call
    returns a response.  A failure inside the registration wizard (its body
    raises) comes back as the terminal "END " registration-error screen with
    the session entry of that sessionId removed, and a failure of the
    notification gateway during the call also ends in a terminal "END "
    response with the session entry removed. *)
Theorem ussd_handler_never_raises env sessionId serviceCode phoneNumber text st :
  exists response st',
    ussd_handler env sessionId serviceCode phoneNumber text st = (Ok response, st') /\
    (forall e st1,
        opt_is (session_of st sessionId !! "flow") "registration" = true ->
        handle_registration_flow_body env sessionId phoneNumber text (text_array_of text)
          (session_of st sessionId) st = (Raised e, st1) ->
        response = "END Registration error. Please try again later." /\
        is_terminal response = true /\
        sessions st' !! sessionId = None) /\
    (forall call error,
        sms_calls st' = sms_calls st ++ [call] ->
        sms_send env call = SmsRaised error ->
        is_terminal response = true /\
        sessions st' !! sessionId = None).
Proof.
  rewrite ussd_handler_dispatch.
  destruct (opt_is _ "registration") eqn:Hflow.
  - destruct (handle_registration_flow_well_formed env sessionId phoneNumber text
                (text_array_of text) (session_of st sessionId) st)
      as (r & st' & Hrun & _).
    rewrite Hrun. exists r, st'. split; [reflexivity|]. split.
    + intros e st1 _ Hraise.
      rewrite (handle_registration_flow_raised _ _ _ _ _ _ _ _ _ Hraise) in Hrun.
      injection Hrun as <- <-. cbn. rewrite lookup_delete_eq. auto.
    + intros call error Hcalls _.
      apply handle_registration_flow_frame in Hrun as [Hsame _].
      rewrite Hsame in Hcalls. symmetry in Hcalls. now apply app_singleton_neq in Hcalls.
  - destruct (menu_dispatch_well_formed env sessionId phoneNumber text
                (text_array_of text) st) as (r & st' & Hrun & _).
    rewrite Hrun. exists r, st'. split; [reflexivity|]. split.
    + intros e st1 Habs. discriminate Habs.
    + intros call error Hcalls _.
      apply menu_dispatch_gateway in Hrun as [Hsame | [Hterm Hs]].
      * rewrite Hsame in Hcalls. symmetry in Hcalls. now apply app_singleton_neq in Hcalls.
      * split; [assumption|]. rewrite Hs. apply lookup_delete_eq.
Qed.

(** ** The session store *)

Lemma update_session_run session_id key value st :
  update_session session_id key value st =
    (Ok tt,
     set_sessions (insert session_id (<[key := value]> (session_of st session_id))) st).
Proof.
  unfold update_session, modify. f_equal. unfold set_sessions. f_equal.
  destruct (sessions st !! session_id) as [d|] eqn:E; cbn.
  - now rewrite E.
  - rewrite lookup_insert_eq. cbn. apply insert_insert_eq.
Qed.

(** An active wizard means a stored entry. *)
Lemma active_flow_stored st sessionId :
  opt_is (session_of st sessionId !! "flow") "registration" = true ->
  exists data,
    sessions st !! sessionId = Some data /\ data !! "flow" = Some "registration".
Proof.
  destruct (sessions st !! sessionId) as [d|]; cbn.
  - destruct (d !! "flow") as [f|] eqn:E; cbn; [|discriminate].
    intros H%String.eqb_eq. subst. eauto.
  - rewrite lookup_empty. discriminate.
Qed.

Lemma opt_is_true o s : opt_is o s = true <-> o = Some s.
Proof.
  destruct o as [v|]; cbn; [|easy].
  rewrite String.eqb_eq. split; congruence.
Qed.

Lemma sessions_wizard_only_empty : sessions_wizard_only empty_store.
Proof. apply map_Forall_empty. Qed.

(** The wizard keeps its entry a wizard entry, or removes it, and creates
    nothing. *)
Lemma handle_registration_flow_sessions env sessionId phoneNumber text text_array st
    response st' :
  sessions_wizard_only st ->
  opt_is (session_of st sessionId !! "flow") "registration" = true ->
  handle_registration_flow env sessionId phoneNumber text text_array
    (session_of st sessionId) st = (Ok response, st') ->
  sessions_wizard_only st' /\
  (forall k, sessions st !! k = None -> sessions st' !! k = None).
Proof.
  intros Hinv Hflow.
  destruct (active_flow_stored _ _ Hflow) as (d & Hd & Hdflow).
  rewrite Hd. cbn [default from_option id].
  unfold sessions_wizard_only in *.
  wizard_split d text; cbv [mbind M_bind bind try_except mret M_ret ret];
    rewrite ?update_session_run; cbn [fst snd]; rewrite ?update_session_run;
    run_m; intros [= <- <-]; cbn [sessions set_sessions set_users_db];
    rewrite ?Hd, ?lookup_insert_eq; cbn [default from_option id].
  all: split;
    [ repeat first [ apply map_Forall_delete | apply map_Forall_insert_2 ];
      try assumption
    | intros k Hk; assert (k <> sessionId) by congruence;
      rewrite ?lookup_delete_ne, ?lookup_insert_ne by congruence; assumption ].
  all: try apply opt_is_true in Hname; try apply opt_is_true in Hlocation.
  all: split; simplify_map_eq; auto.
Qed.

(** What the menu does to the session store: nothing, drop the entry of
    the request, or enter the wizard on "2" from an unregistered phone. *)
Lemma menu_dispatch_sessions env sessionId phoneNumber text text_array st response st' :
  menu_dispatch env sessionId phoneNumber text text_array st = (Ok response, st') ->
  sessions st' = sessions st \/
  sessions st' = delete sessionId (sessions st) \/
  (text = "2" /\ PyDict.get phoneNumber (users_db st) = None /\
   response = USSDSession.get_registration_name_prompt /\
   sessions st' = <[sessionId := new_wizard_entry phoneNumber]> (sessions st)).
Proof.
  menu_cases text text_array;
    try (run_m; intros [= <- <-]; cbn; auto; fail).
  - run_m. apply String.eqb_eq in H2.
    destruct (PyDict.get phoneNumber (users_db st)) eqn:Huser; intros [= <- <-]; cbn;
      auto 10.
  - destruct (confirm_alert_ok env sessionId phoneNumber alert_type st)
      as (r & st1 & -> & _ & Hs & _).
    intros [= <- <-]. auto.
Qed.

Lemma new_wizard_entry_ok phoneNumber : wizard_entry (new_wizard_entry phoneNumber).
Proof. unfold wizard_entry, new_wizard_entry. split; simplify_map_eq; auto. Qed.

(** One call keeps the store made of wizard entries, and only the
    register option creates one. *)
Lemma ussd_handler_sessions env sessionId serviceCode phoneNumber text st response st' :
  sessions_wizard_only st ->
  ussd_handler env sessionId serviceCode phoneNumber text st = (Ok response, st') ->
  sessions_wizard_only st' /\
  (forall k, sessions st !! k = None -> is_Some (sessions st' !! k) ->
     k = sessionId /\ text = "2" /\ PyDict.get phoneNumber (users_db st) = None /\
     sessions st' !! k = Some (new_wizard_entry phoneNumber)).
Proof.
  intros Hinv. rewrite ussd_handler_dispatch.
  destruct (opt_is _ "registration") eqn:Hflow.
  - intros Hrun.
    destruct (handle_registration_flow_sessions _ _ _ _ _ _ _ _ Hinv Hflow Hrun)
      as [Hinv' Hnone].
    split; [assumption|]. intros k Hk [v Hv]. rewrite (Hnone k Hk) in Hv. discriminate.
  - intros Hrun. unfold sessions_wizard_only in *.
    apply menu_dispatch_sessions in Hrun as [-> | [-> | (-> & Huser & _ & ->)]].
    + split; [assumption|]. intros k Hk [v Hv]. congruence.
    + split; [now apply map_Forall_delete|].
      intros k Hk [v Hv]. apply lookup_delete_Some in Hv as [_ Hv]. congruence.
    + split; [apply map_Forall_insert_2; auto using new_wizard_entry_ok|].
      intros k Hk [v Hv]. apply lookup_insert_Some in Hv as [[<- <-] | [_ Hv]];
        [|congruence].
      rewrite lookup_insert_eq. auto.
Qed.

(** C10. After a completed call to the handler every entry of the session
    store has flow "registration" and a step among "name", "location" and
    "confirmation", given that this held before the call (it holds of the
    empty store); and an entry that was not there before the call is the
    one of the request, created because an unregistered phone chose the
    register option "2". *)
Theorem session_store_holds_wizard_entries env sessionId serviceCode phoneNumber text st
    response st' :
  sessions_wizard_only st ->
  ussd_handler env sessionId serviceCode phoneNumber text st = (Ok response, st') ->
  map_Forall
    (fun _ data =>
       data !! "flow" = Some "registration" /\
       (data !! "step" = Some "name" \/ data !! "step" = Some "location"
        \/ data !! "step" = Some "confirmation"))
    (sessions st') /\
  (forall k, sessions st !! k = None -> is_Some (sessions st' !! k) ->
     k = sessionId /\ text = "2" /\ PyDict.get phoneNumber (users_db st) = None /\
     sessions st' !! k = Some (new_wizard_entry phoneNumber)).
Proof.
  intros Hinv Hrun. exact (ussd_handler_sessions _ _ _ _ _ _ _ _ Hinv Hrun).
Qed.

(** Along any sequence of requests from a store of wizard entries. *)
Lemma run_sessions_wizard_only env reqs st responses st' :
  sessions_wizard_only st ->
  run env reqs st = (responses, st') ->
  sessions_wizard_only st'.
Proof.
  revert st responses st'. induction reqs as [|req reqs IH]; intros st responses st' Hinv.
  - intros [= <- <-]. assumption.
  - cbn [run]. unfold serve.
    destruct (ussd_handler_returns env (sessionId req) (serviceCode req)
                (phoneNumber req) (text req) st) as (r & st1 & Hrun & _).
    rewrite Hrun. destruct (run env reqs st1) as [rs st2] eqn:Hrest.
    intros [= <- <-]. apply (IH _ _ _ (proj1 (ussd_handler_sessions _ _ _ _ _ _ _ _ Hinv Hrun)) Hrest).
Qed.

(** ** The user table *)

Lemma dict_get_In {V} k (v : V) d : PyDict.get k d = Some v -> In (k, v) d.
Proof.
  induction d as [|[k' v'] d IH]; cbn; [discriminate|].
  destruct (String.eqb_spec k' k) as [->|].
  - intros [= ->]. now left.
  - intros H. right. auto.
Qed.

Lemma dict_get_set_eq {V} k (v : V) d : PyDict.get k (PyDict.set k v d) = Some v.
Proof.
  induction d as [|[k' v'] d IH]; cbn.
  - now rewrite String.eqb_refl.
  - destruct (String.eqb_spec k' k) as [->|Hne]; cbn.
    + now rewrite String.eqb_refl.
    + destruct (String.eqb_spec k' k); [contradiction|]. exact IH.
Qed.

Lemma dict_get_set_ne {V} k k' (v : V) d :
  k <> k' -> PyDict.get k' (PyDict.set k v d) = PyDict.get k' d.
Proof.
  intros Hne. induction d as [|[k0 v0] d IH]; cbn.
  - destruct (String.eqb_spec k k'); [contradiction|reflexivity].
  - destruct (String.eqb_spec k0 k) as [->|]; cbn.
    + destruct (String.eqb_spec k k'); [contradiction|reflexivity].
    + now rewrite IH.
Qed.

(** Who is in a location: the users whose location is the same up to case. *)
Lemma get_users_by_location_In location st user :
  In user (get_users_by_location location st) <->
  In user (map snd (users_db st)) /\
  PyStr.lower (User.location user) = PyStr.lower location.
Proof.
  unfold get_users_by_location. rewrite filter_In, String.eqb_eq. reflexivity.
Qed.

(** A registered user is in their own location. *)
Lemma registered_in_own_location phone user st :
  PyDict.get phone (users_db st) = Some user ->
  In user (get_users_by_location (User.location user) st).
Proof.
  intros H%dict_get_In. apply get_users_by_location_In. split; [|reflexivity].
  apply in_map_iff. exists (phone, user). auto.
Qed.

(** ** Confirming an alert *)

Lemma confirm_alert_unregistered env sessionId phoneNumber alert_type st :
  PyDict.get phoneNumber (users_db st) = None ->
  confirm_alert env sessionId phoneNumber alert_type st =
    (Ok (acknowledgement alert_type sessionId phoneNumber None),
     set_sessions (delete sessionId)
       (set_emergency_reports
          (insert (reference_id_of sessionId)
             (report_of env sessionId phoneNumber alert_type)) st)).
Proof.
  intros H. unfold confirm_alert. run_m. rewrite H. reflexivity.
Qed.

(** For a registered caller one gateway call is made, to everybody of the
    caller's location; the report is stored before it and stays whatever
    the gateway answers. *)
Lemma confirm_alert_registered env sessionId phoneNumber alert_type user st :
  PyDict.get phoneNumber (users_db st) = Some user ->
  confirm_alert env sessionId phoneNumber alert_type st =
    (Ok (acknowledgement alert_type sessionId phoneNumber
           match sms_send env (alert_call_of env alert_type user phoneNumber st) with
           | SmsSent _ =>
               Some (length (get_users_by_location (User.location user) st))
           | SmsRaised _ => None
           end),
     set_sessions (delete sessionId)
       (log_sms_call (alert_call_of env alert_type user phoneNumber st)
          (set_emergency_reports
             (insert (reference_id_of sessionId)
                (report_of env sessionId phoneNumber alert_type)) st))).
Proof.
  intros H. pose proof (registered_in_own_location _ _ _ H) as Hin.
  unfold confirm_alert, send_alert_to_location, sms_send_call, alert_call_of. run_m.
  rewrite H. cbn [fst snd].
  change (get_users_by_location (User.location user) (set_emergency_reports _ st))
    with (get_users_by_location (User.location user) st).
  destruct (get_users_by_location (User.location user) st) as [|u us] eqn:Hus;
    [contradiction|].
  destruct (PyStr.truthy (AFRICAS_TALKING_SENDER_ID env));
    cbn [fst snd]; rewrite length_map;
    destruct (sms_send env _); reflexivity.
Qed.

(** A path of two or more segments is not one of the two root texts. *)
Lemma deep_text_not_root text :
  2 <= length (text_array_of text) ->
  String.eqb text "" || String.eqb text "0" = false.
Proof.
  intros Hlen.
  destruct (String.eqb_spec text "") as [->|]; [cbn in Hlen; lia|].
  destruct (String.eqb_spec text "0") as [->|]; [cbn in Hlen; lia|].
  reflexivity.
Qed.

(** The request "1*k*1" outside the wizard is the confirmation of type k. *)
Lemma ussd_handler_confirm env sessionId serviceCode phoneNumber text k alert_type st :
  opt_is (session_of st sessionId !! "flow") "registration" = false ->
  text_array_of text = ["1"; k; "1"] ->
  PyDict.get k emergency_types = Some alert_type ->
  ussd_handler env sessionId serviceCode phoneNumber text st =
    confirm_alert env sessionId phoneNumber alert_type st.
Proof.
  intros Hflow Hpath Htype.
  rewrite ussd_handler_dispatch, Hflow. unfold menu_dispatch.
  rewrite deep_text_not_root by (rewrite Hpath; cbn; lia).
  rewrite Hpath. cbn [String.eqb Ascii.eqb Bool.eqb andb].
  rewrite Htype, (emergency_type_truthy _ _ Htype). reflexivity.
Qed.

(** C9. When the notification fan-out fails after the report of a
    confirmed emergency was created, the report stays stored as created and
    the handler still returns the terminal acknowledgement with the
    emergency type and the reference id; against a delivery that succeeds,
    the store is the same and the response differs only by the line with
    the count of notified users. *)
Theorem fan_out_failure_keeps_report env sessionId serviceCode phoneNumber text k
    alert_type user error st :
  opt_is (session_of st sessionId !! "flow") "registration" = false ->
  text_array_of text = ["1"; k; "1"] ->
  PyDict.get k emergency_types = Some alert_type ->
  PyDict.get phoneNumber (users_db st) = Some user ->
  sms_send env (alert_call_of env alert_type user phoneNumber st) = SmsRaised error ->
  exists st',
    ussd_handler env sessionId serviceCode phoneNumber text st =
      (Ok (acknowledgement alert_type sessionId phoneNumber None), st') /\
    is_terminal (acknowledgement alert_type sessionId phoneNumber None) = true /\
    emergency_reports st' !! reference_id_of sessionId =
      Some (report_of env sessionId phoneNumber alert_type) /\
    (forall env_ok delivered,
        now env_ok = now env ->
        AFRICAS_TALKING_SENDER_ID env_ok = AFRICAS_TALKING_SENDER_ID env ->
        sms_send env_ok (alert_call_of env alert_type user phoneNumber st)
          = SmsSent delivered ->
        ussd_handler env_ok sessionId serviceCode phoneNumber text st =
          (Ok (acknowledgement alert_type sessionId phoneNumber
                 (Some (length (get_users_by_location (User.location user) st)))),
           st')).
Proof.
  intros Hflow Hpath Htype Huser Hdown.
  rewrite (ussd_handler_confirm _ _ _ _ _ _ _ _ Hflow Hpath Htype).
  rewrite (confirm_alert_registered _ _ _ _ _ _ Huser), Hdown.
  eexists. split; [reflexivity|]. split; [unfold acknowledgement; prefix_tac|].
  split; [cbn; apply lookup_insert_eq|].
  intros env_ok delivered Hnow Hsender Hup.
  rewrite (ussd_handler_confirm _ _ _ _ _ _ _ _ Hflow Hpath Htype).
  rewrite (confirm_alert_registered _ _ _ _ _ _ Huser).
  assert (alert_call_of env_ok alert_type user phoneNumber st
          = alert_call_of env alert_type user phoneNumber st) as ->
    by (unfold alert_call_of; now rewrite Hsender).
  assert (report_of env_ok sessionId phoneNumber alert_type
          = report_of env sessionId phoneNumber alert_type) as ->
    by (unfold report_of; now rewrite Hnow).
  now rewrite Hup.
Qed.

Lemma fan_out_failure_keeps_report_witness :
  exists st',
    ussd_handler env_down "sess-0001" "*123#" "+254712000001" "1*1*1" westlands_store =
      (Ok (acknowledgement "Fire Emergency" "sess-0001" "+254712000001" None), st') /\
    emergency_reports st' !! "EMR-sess-000" =
      Some (report_of env_down "sess-0001" "+254712000001" "Fire Emergency").
Proof.
  destruct (fan_out_failure_keeps_report env_down "sess-0001" "*123#" "+254712000001"
              "1*1*1" "1" "Fire Emergency"
              (User.mk "+254712000001" "Amina" "Westlands" "2025-06-20T08:00:00.000000")
              "connection refused" westlands_store)
    as (st' & Hrun & _ & Hreport & _); try (vm_compute; reflexivity).
  exists st'. split; [exact Hrun | exact Hreport].
Defined.

(** C2, as the code has it. When a registered user confirms an emergency
    and the gateway delivers, one gateway call goes to every registered
    user whose location equals the caller's up to case, the caller
    included, and the count in the response is the number of those users. *)
Theorem fan_out_reaches_location env sessionId serviceCode phoneNumber text k
    alert_type user delivered st :
  opt_is (session_of st sessionId !! "flow") "registration" = false ->
  text_array_of text = ["1"; k; "1"] ->
  PyDict.get k emergency_types = Some alert_type ->
  PyDict.get phoneNumber (users_db st) = Some user ->
  sms_send env (alert_call_of env alert_type user phoneNumber st) = SmsSent delivered ->
  exists st' recipients,
    ussd_handler env sessionId serviceCode phoneNumber text st =
      (Ok (acknowledgement alert_type sessionId phoneNumber (Some (length recipients))),
       st') /\
    sms_calls st' = sms_calls st ++ [alert_call_of env alert_type user phoneNumber st] /\
    sms_recipients (alert_call_of env alert_type user phoneNumber st)
      = map User.phone_number recipients /\
    (forall u, In u recipients <->
               In u (map snd (users_db st)) /\
               PyStr.lower (User.location u) = PyStr.lower (User.location user)) /\
    In user recipients.
Proof.
  intros Hflow Hpath Htype Huser Hup.
  rewrite (ussd_handler_confirm _ _ _ _ _ _ _ _ Hflow Hpath Htype).
  rewrite (confirm_alert_registered _ _ _ _ _ _ Huser), Hup.
  eexists _, (get_users_by_location (User.location user) st).
  split; [reflexivity|]. split; [reflexivity|]. split; [reflexivity|].
  split; [intros u; apply get_users_by_location_In|].
  now apply registered_in_own_location with phoneNumber.
Qed.

Lemma fan_out_reaches_location_witness :
  exists st' recipients,
    ussd_handler env_up "sess-0001" "*123#" "+254712000001" "1*1*1" westlands_store =
      (Ok (acknowledgement "Fire Emergency" "sess-0001" "+254712000001"
             (Some (length recipients))), st') /\
    In (User.mk "+254712000001" "Amina" "Westlands" "2025-06-20T08:00:00.000000")
       recipients.
Proof.
  destruct (fan_out_reaches_location env_up "sess-0001" "*123#" "+254712000001"
              "1*1*1" "1" "Fire Emergency"
              (User.mk "+254712000001" "Amina" "Westlands" "2025-06-20T08:00:00.000000")
              "queued" westlands_store)
    as (st' & recipients & Hrun & _ & _ & _ & Hin); try (vm_compute; reflexivity).
  exists st', recipients. split; [exact Hrun | exact Hin].
Defined.

(** C2, as stated, fails: with two users in "Westlands"/"westlands" and a
    third elsewhere, a confirmation by one of the two is sent to both of
    them and the response reports 2 local users notified, not 1. *)
Lemma fan_out_counts_the_caller :
  (exists st',
     ussd_handler env_up "sess-0001" "*123#" "+254712000001" "1*1*1" westlands_store =
       (Ok ("END Fire Emergency alert sent!" +:+ LF +:+
            "Reference: EMR-sess-000" +:+ LF +:+
            "Location: 📍Westlands, Nairobi | 🏢Near Sarit Centre | GPS:-1.3032,36.7073"
            +:+ LF +:+ "✓ 2 local users notified" +:+ LF +:+ "Stay safe!"), st') /\
     map sms_recipients (sms_calls st') = [["+254712000001"; "+254712000002"]]) /\
  ~ (exists st',
       ussd_handler env_up "sess-0001" "*123#" "+254712000001" "1*1*1" westlands_store =
         (Ok (acknowledgement "Fire Emergency" "sess-0001" "+254712000001" (Some 1)),
          st')).
Proof.
  split.
  - eexists. split; vm_compute; reflexivity.
  - intros [st' H]. vm_compute in H. discriminate H.
Qed.

(** ** Paths that do not start in the emergency branch *)

(** C3, as the code has it. With no wizard active, a text of 2 or 3
    segments whose first segment is not "1" gets the generic fallback
    response, the session entry is dropped and nothing else changes (no
    report, no gateway call), except for the text "4*0", the way back from
    the help screen. *)
Theorem non_emergency_path_falls_back env sessionId serviceCode phoneNumber text st :
  length (text_array_of text) = 2 \/ length (text_array_of text) = 3 ->
  hd "" (text_array_of text) <> "1" ->
  opt_is (session_of st sessionId !! "flow") "registration" = false ->
  text <> "4*0" ->
  ussd_handler env sessionId serviceCode phoneNumber text st =
    (Ok fallback_response, set_sessions (delete sessionId) st).
Proof.
  intros Hlen Hfirst Hflow Hhelp.
  rewrite ussd_handler_dispatch, Hflow. unfold menu_dispatch.
  rewrite deep_text_not_root by lia.
  pose proof (text_array_of_join text) as Hjoin.
  destruct (text_array_of text) as [|t0 [|t1 [|t2 [|t3 rest]]]]; cbn in Hlen; try lia;
    cbn in Hfirst; destruct (String.eqb_spec t0 "1"); try contradiction.
  - destruct (String.eqb_spec t0 "4"), (String.eqb_spec t1 "0"); try reflexivity.
    exfalso. apply Hhelp. rewrite <- Hjoin. subst t0 t1. reflexivity.
  - reflexivity.
Qed.

Lemma non_emergency_path_falls_back_witness :
  ussd_handler env_up "sess-0001" "*123#" "+254712000001" "3*1*1" westlands_store =
    (Ok fallback_response, set_sessions (delete "sess-0001") westlands_store).
Proof.
  apply non_emergency_path_falls_back;
    [ right; reflexivity | discriminate | reflexivity | discriminate ].
Defined.

(** C3, as stated, fails: "4*0" has two segments, does not start with "1",
    and is answered with the menu root, a continuation. *)
Lemma help_back_is_not_fallback :
  ~ (forall env sessionId serviceCode phoneNumber text st,
       length (text_array_of text) = 2 \/ length (text_array_of text) = 3 ->
       hd "" (text_array_of text) <> "1" ->
       opt_is (session_of st sessionId !! "flow") "registration" = false ->
       exists st',
         ussd_handler env sessionId serviceCode phoneNumber text st
           = (Ok fallback_response, st')).
Proof.
  intros H.
  destruct (H env_up "sess-0001" "*123#" "+254712000001" "4*0" empty_store)
    as [st' Hrun]; [left; reflexivity | discriminate | reflexivity |].
  vm_compute in Hrun. discriminate Hrun.
Qed.

(** ** Repeating a request after the session ended *)

Lemma emergency_type_cases k alert_type :
  PyDict.get k emergency_types = Some alert_type ->
  alert_type = "Fire Emergency" \/ alert_type = "Medical Emergency" \/
  alert_type = "Security Alert" \/ alert_type = "Natural Disaster".
Proof.
  cbn. repeat case_cond; intros [= <-]; auto.
Qed.

Lemma acknowledgement_not_error alert_type sessionId phoneNumber notified k :
  PyDict.get k emergency_types = Some alert_type ->
  acknowledgement alert_type sessionId phoneNumber notified <> system_error_response /\
  acknowledgement alert_type sessionId phoneNumber notified <> registration_error_response.
Proof.
  intros Htype.
  destruct (emergency_type_cases _ _ Htype) as [-> | [-> | [-> | ->]]];
    destruct notified; split; discriminate.
Qed.

(** The menu never answers with one of the two error screens of the
    [except] clauses. *)
Lemma menu_dispatch_not_error env sessionId phoneNumber text text_array st response st' :
  menu_dispatch env sessionId phoneNumber text text_array st = (Ok response, st') ->
  response <> system_error_response /\ response <> registration_error_response.
Proof.
  menu_cases text text_array;
    try (run_m; intros [= <- <-]; split; discriminate).
  - run_m. destruct (PyDict.get phoneNumber (users_db st));
      intros [= <- <-]; split; discriminate.
  - destruct (PyDict.get phoneNumber (users_db st)) as [user|] eqn:Huser.
    + rewrite (confirm_alert_registered _ _ _ _ _ _ Huser). intros [= <- <-].
      eapply acknowledgement_not_error; eassumption.
    + rewrite (confirm_alert_unregistered _ _ _ _ _ Huser). intros [= <- <-].
      eapply acknowledgement_not_error; eassumption.
Qed.

(** A session without an entry is routed by the menu. *)
Lemma no_entry_no_flow st sessionId :
  sessions st !! sessionId = None ->
  opt_is (session_of st sessionId !! "flow") "registration" = false.
Proof. intros ->. cbn. now rewrite lookup_empty. Qed.

(** In a store of wizard entries a terminal response always leaves the
    session without an entry. *)
Lemma terminal_response_clears_session env sessionId serviceCode phoneNumber text st
    response st' :
  sessions_wizard_only st ->
  ussd_handler env sessionId serviceCode phoneNumber text st = (Ok response, st') ->
  is_terminal response = true ->
  sessions st' !! sessionId = None.
Proof.
  intros Hinv. rewrite ussd_handler_dispatch.
  destruct (opt_is _ "registration") eqn:Hflow.
  - wizard_cases (session_of st sessionId) text; intros [= <- <-] Hterm;
      cbn [sessions set_sessions set_users_db];
      try apply lookup_delete_eq;
      apply terminal_not_continue in Hterm;
      (assert (is_continue (USSDSession.get_registration_location_prompt
                              (PyStr.strip text)) = true) by prefix_tac
       || assert (is_continue (USSDSession.get_registration_confirmation
                                 (session_of st sessionId !! "name")
                                 (Some (PyStr.strip text))) = true) by prefix_tac
       || assert (is_continue (USSDSession.get_registration_confirmation
                                 (session_of st sessionId !! "name")
                                 (session_of st sessionId !! "location")) = true)
            by prefix_tac
       || idtac);
      try congruence; try discriminate Hterm.
  - intros Hrun Hterm.
    assert (sessions st !! sessionId = None) as Hnone.
    { destruct (sessions st !! sessionId) as [d|] eqn:Hd; [|reflexivity].
      destruct (map_Forall_lookup_1 _ _ _ _ Hinv Hd) as [Hf _].
      cbn in Hflow. rewrite Hf in Hflow. discriminate Hflow. }
    apply menu_dispatch_sessions in Hrun as [-> | [-> | (_ & _ & -> & _)]].
    + assumption.
    + apply lookup_delete_eq.
    + discriminate Hterm.
Qed.

(** C4, as the code has it. After a call whose terminal response left no
    entry for the session, the same request again is served as for a
    session without stored state: by the menu routing on the text, not by
    the wizard; the answer is never one of the error screens of the
    handlers, and it is the menu-root screen when the text is empty or
    "0". *)
Theorem repeat_after_terminal_is_menu_routed env env' sessionId serviceCode phoneNumber
    text st response st' :
  ussd_handler env sessionId serviceCode phoneNumber text st = (Ok response, st') ->
  is_terminal response = true ->
  sessions st' !! sessionId = None ->
  ussd_handler env' sessionId serviceCode phoneNumber text st' =
    menu_dispatch env' sessionId phoneNumber text (text_array_of text) st' /\
  (forall again st'',
      ussd_handler env' sessionId serviceCode phoneNumber text st' = (Ok again, st'') ->
      again <> system_error_response /\ again <> registration_error_response) /\
  (text = "" \/ text = "0" ->
   ussd_handler env' sessionId serviceCode phoneNumber text st' =
     (Ok USSDSession.get_main_menu, set_sessions (delete sessionId) st')).
Proof.
  intros _ _ Hcleared.
  pose proof (no_entry_no_flow _ _ Hcleared) as Hflow.
  rewrite ussd_handler_dispatch, Hflow.
  split; [reflexivity|]. split.
  - intros again st''. apply menu_dispatch_not_error.
  - intros [-> | ->]; reflexivity.
Qed.

Lemma repeat_after_terminal_is_menu_routed_witness :
  ussd_handler env_up "s-eve" "*123#" "+254733000009" "2"
    (set_sessions (delete "s-eve") confirming_store) =
  menu_dispatch env_up "s-eve" "+254733000009" "2" (text_array_of "2")
    (set_sessions (delete "s-eve") confirming_store).
Proof.
  apply (repeat_after_terminal_is_menu_routed env_up env_up "s-eve" "*123#"
           "+254733000009" "2" confirming_store "END Registration cancelled."
           (set_sessions (delete "s-eve") confirming_store));
    vm_compute; reflexivity.
Defined.

(** C4, as stated, fails: the wizard's confirmation "1" ends the session
    with the success screen and removes its entry; the same request again
    is then the first-level choice "1" and shows the emergency menu, not
    the menu root. *)
Lemma repeat_is_not_menu_root :
  ~ (forall env sessionId serviceCode phoneNumber text st response st',
       ussd_handler env sessionId serviceCode phoneNumber text st = (Ok response, st') ->
       is_terminal response = true ->
       is_Some (sessions st !! sessionId) ->
       sessions st' !! sessionId = None ->
       exists st'',
         ussd_handler env sessionId serviceCode phoneNumber text st'
           = (Ok USSDSession.get_main_menu, st'')).
Proof.
  intros H.
  destruct (H env_up "s-eve" "*123#" "+254733000009" "1" confirming_store
              ("END Registration successful!" +:+ LF +:+ "Name: Eve" +:+ LF +:+
               "Location: Mombasa" +:+ LF +:+ "Phone: +254733000009" +:+ LF +:+
               "You can now receive location alerts!")
              (set_users_db
                 (PyDict.set "+254733000009"
                    (User.mk "+254733000009" "Eve" "Mombasa" (now env_up)))
                 (set_sessions (delete "s-eve") confirming_store)))
    as [st'' Hagain].
  - vm_compute. reflexivity.
  - reflexivity.
  - vm_compute. eauto.
  - vm_compute. reflexivity.
  - vm_compute in Hagain. discriminate Hagain.
Qed.

(** ** The report log *)

(** The menu writes at most one report, under the id derived from the
    session id of the request. *)
Lemma menu_dispatch_reports env sessionId phoneNumber text text_array st response st' :
  menu_dispatch env sessionId phoneNumber text text_array st = (Ok response, st') ->
  emergency_reports st' = emergency_reports st \/
  exists alert_type,
    emergency_reports st' =
      <[reference_id_of sessionId := report_of env sessionId phoneNumber alert_type]>
        (emergency_reports st).
Proof.
  menu_cases text text_array;
    try (run_m; intros [= <- <-]; left; reflexivity).
  - run_m. destruct (PyDict.get phoneNumber (users_db st)); intros [= <- <-];
      left; reflexivity.
  - destruct (PyDict.get phoneNumber (users_db st)) as [user|] eqn:Huser.
    + rewrite (confirm_alert_registered _ _ _ _ _ _ Huser). intros [= <- <-].
      right. exists alert_type. reflexivity.
    + rewrite (confirm_alert_unregistered _ _ _ _ _ Huser). intros [= <- <-].
      right. exists alert_type. reflexivity.
Qed.

Lemma ussd_handler_reports env sessionId serviceCode phoneNumber text st response st' :
  ussd_handler env sessionId serviceCode phoneNumber text st = (Ok response, st') ->
  emergency_reports st' = emergency_reports st \/
  exists alert_type,
    emergency_reports st' =
      <[reference_id_of sessionId := report_of env sessionId phoneNumber alert_type]>
        (emergency_reports st).
Proof.
  rewrite ussd_handler_dispatch. destruct (opt_is _ "registration").
  - intros H%handle_registration_flow_frame. left. apply H.
  - apply menu_dispatch_reports.
Qed.

Lemma reference_id_of_inj a b :
  reference_id_of a = reference_id_of b -> PyStr.take 8 a = PyStr.take 8 b.
Proof. unfold reference_id_of. cbn. now intros [= H]. Qed.

(** C7, as the code has it. A report is stored under the reference id
    "EMR-" followed by the first 8 characters of the session id, without
    any check on the log: a call replaces no report stored under another
    reference id, what it adds is the report of its own session under that
    derived id, and session ids that differ within their first 8
    characters give different reference ids. *)
Theorem report_stored_under_derived_id env sessionId serviceCode phoneNumber text st
    response st' :
  ussd_handler env sessionId serviceCode phoneNumber text st = (Ok response, st') ->
  (forall ref report,
      ref <> reference_id_of sessionId ->
      emergency_reports st !! ref = Some report ->
      emergency_reports st' !! ref = Some report) /\
  (forall ref report,
      emergency_reports st' !! ref = Some report ->
      emergency_reports st !! ref <> Some report ->
      ref = reference_id_of sessionId /\
      EmergencyReport.reference_id report = reference_id_of sessionId /\
      EmergencyReport.session_id report = sessionId) /\
  (forall other,
      PyStr.take 8 sessionId <> PyStr.take 8 other ->
      reference_id_of sessionId <> reference_id_of other).
Proof.
  intros Hrun. apply ussd_handler_reports in Hrun as [-> | [alert_type ->]].
  - split; [auto|]. split; [congruence|].
    intros other Hne H%reference_id_of_inj. contradiction.
  - split; [intros ref report Hne; now rewrite lookup_insert_ne by congruence|].
    split.
    + intros ref report Hnew Hold.
      apply lookup_insert_Some in Hnew as [[<- <-] | [_ Hnew]]; [auto | congruence].
    + intros other Hne H%reference_id_of_inj. contradiction.
Qed.

Lemma report_stored_under_derived_id_witness :
  emergency_reports
    (set_sessions (delete "ATUid_0002")
       (set_emergency_reports
          (insert (reference_id_of "ATUid_0002")
             (report_of env_up "ATUid_0002" "+254733000009" "Medical Emergency"))
          reported_store)) !! "EMR-KASA-777"
  = Some (report_of env_up "KASA-7777-a" "+254711000001" "Fire Emergency").
Proof.
  refine (proj1 (report_stored_under_derived_id env_up "ATUid_0002" "*123#"
                   "+254733000009" "1*2*1" reported_store
                   (acknowledgement "Medical Emergency" "ATUid_0002" "+254733000009" None)
                   _ _) "EMR-KASA-777" _ _ _).
  - vm_compute. reflexivity.
  - discriminate.
  - vm_compute. reflexivity.
Defined.

(** C7, as stated, fails: two sessions whose ids share their first 8
    characters get the same reference id, and the report of the second
    takes the place of the report of the first. *)
Lemma shared_prefix_replaces_report :
  exists response1 st1 response2 st2,
    ussd_handler env_up "ATUid_0001" "*123#" "+254711000001" "1*1*1" empty_store
      = (Ok response1, st1) /\
    ussd_handler env_up "ATUid_0002" "*123#" "+254720000002" "1*2*1" st1
      = (Ok response2, st2) /\
    emergency_reports st1 !! "EMR-ATUid_00" =
      Some (report_of env_up "ATUid_0001" "+254711000001" "Fire Emergency") /\
    emergency_reports st2 !! "EMR-ATUid_00" =
      Some (report_of env_up "ATUid_0002" "+254720000002" "Medical Emergency") /\
    EmergencyReport.reference_id
      (report_of env_up "ATUid_0001" "+254711000001" "Fire Emergency") =
    EmergencyReport.reference_id
      (report_of env_up "ATUid_0002" "+254720000002" "Medical Emergency") /\
    size (emergency_reports st2) = 1.
Proof.
  eexists _, _, _, _.
  split; [vm_compute; reflexivity|].
  split; [vm_compute; reflexivity|].
  repeat split; vm_compute; reflexivity.
Qed.

(** ** The registration wizard on concrete runs *)

(** C1: the commit does not look at the registry.  The phone
    +254733000009 walks the wizard in session "sess-A" up to the
    confirmation step; session "sess-B" of the same phone registers "Bob"
    of "Kisumu" meanwhile; the "1" of "sess-A" is then answered with the
    success screen and the record of "Bob" is replaced by "Alice" of
    "Nairobi". *)
Theorem commit_overwrites_registered_phone :
  exists responses st7 st8,
    run env_up race_requests empty_store = (responses, st7) /\
    PyDict.get "+254733000009" (users_db st7) =
      Some (User.mk "+254733000009" "Bob" "Kisumu" (now env_up)) /\
    (session_of st7 "sess-A") !! "step" = Some "confirmation" /\
    ussd_handler env_up "sess-A" "*123#" "+254733000009" "1" st7 =
      (Ok ("END Registration successful!" +:+ LF +:+ "Name: Alice" +:+ LF +:+
           "Location: Nairobi" +:+ LF +:+ "Phone: +254733000009" +:+ LF +:+
           "You can now receive location alerts!"), st8) /\
    PyDict.get "+254733000009" (users_db st8) =
      Some (User.mk "+254733000009" "Alice" "Nairobi" (now env_up)).
Proof.
  eexists _, _, _.
  split; [vm_compute; reflexivity|].
  repeat split; vm_compute; reflexivity.
Qed.

(** The commit in general: at the confirmation step "1" stores the
    answers under the phone of the request, whatever the registry holds
    for that phone. *)
Lemma wizard_commit_unconditional env sessionId serviceCode phoneNumber st data name
    location :
  sessions st !! sessionId = Some data ->
  data !! "flow" = Some "registration" ->
  data !! "step" = Some "confirmation" ->
  data !! "name" = Some name ->
  data !! "location" = Some location ->
  exists response st',
    ussd_handler env sessionId serviceCode phoneNumber "1" st = (Ok response, st') /\
    is_terminal response = true /\
    PyDict.get phoneNumber (users_db st') =
      Some (User.mk phoneNumber name location (now env)).
Proof.
  intros Hd Hflow Hstep Hname Hloc.
  rewrite ussd_handler_dispatch, Hd. cbn [default from_option id].
  rewrite Hflow. cbn [opt_is]. rewrite String.eqb_refl.
  unfold handle_registration_flow, handle_registration_flow_body, register_user.
  rewrite Hstep, Hname, Hloc. cbn [opt_is String.eqb Ascii.eqb Bool.eqb].
  run_m. cbn [fst snd PyStr.of_option].
  eexists _, _. split; [reflexivity|]. split; [prefix_tac|].
  cbn. apply dict_get_set_eq.
Qed.

(** C8: with the whole path resent on each request the wizard takes the
    paths for the answers: the name becomes "2*Alice", the location
    "2*Alice*Nairobi", the last request "2*Alice*Nairobi*1" is not "1" and
    shows the confirmation again; nobody is registered. *)
Theorem accumulated_path_does_not_register phoneNumber :
  exists st,
    run env_up (accumulated_requests phoneNumber) empty_store =
      ([ Ok "CON Enter your full name:";
         Ok (USSDSession.get_registration_location_prompt "2*Alice");
         Ok (USSDSession.get_registration_confirmation
               (Some "2*Alice") (Some "2*Alice*Nairobi"));
         Ok (USSDSession.get_registration_confirmation
               (Some "2*Alice") (Some "2*Alice*Nairobi")) ], st) /\
    PyDict.get phoneNumber (users_db st) = None /\
    (session_of st "sess-1") !! "step" = Some "confirmation".
Proof.
  eexists. split; [vm_compute; reflexivity|]. split; vm_compute; reflexivity.
Qed.

(** The same answers sent one at a time do register the user. *)
Lemma keystroke_requests_register phoneNumber :
  exists st,
    run env_up (keystroke_requests phoneNumber) empty_store =
      ([ Ok "CON Enter your full name:";
         Ok (USSDSession.get_registration_location_prompt "Alice");
         Ok (USSDSession.get_registration_confirmation (Some "Alice") (Some "Nairobi"));
         Ok ("END Registration successful!" +:+ LF +:+ "Name: Alice" +:+ LF +:+
             "Location: Nairobi" +:+ LF +:+ "Phone: " +:+ phoneNumber +:+ LF +:+
             "You can now receive location alerts!") ], st) /\
    PyDict.get phoneNumber (users_db st) =
      Some (User.mk phoneNumber "Alice" "Nairobi" (now env_up)) /\
    sessions st !! "sess-1" = None.
Proof.
  eexists. split; [vm_compute; reflexivity|]. split.
  - cbn. now rewrite String.eqb_refl.
  - vm_compute. reflexivity.
Qed.

(** ** Instances *)

Lemma ussd_handler_never_raises_witness :
  exists response st',
    ussd_handler env_up "s-lost" "*123#" "+254733000009" "1" corrupted_store
      = (Ok response, st') /\
    response = "END Registration error. Please try again later." /\
    sessions st' !! "s-lost" = None.
Proof.
  destruct (ussd_handler_never_raises env_up "s-lost" "*123#" "+254733000009" "1"
              corrupted_store) as (response & st' & Hrun & Hwizard & _).
  exists response, st'. split; [exact Hrun|].
  destruct (Hwizard (ValidationError "name") corrupted_store) as (Hresp & _ & Hgone);
    [vm_compute; reflexivity | vm_compute; reflexivity |].
  split; [exact Hresp | exact Hgone].
Defined.

Lemma session_store_holds_wizard_entries_witness :
  sessions_wizard_only
    (set_sessions (insert "sess-1" (new_wizard_entry "+254733000009")) empty_store) /\
  sessions (set_sessions (insert "sess-1" (new_wizard_entry "+254733000009")) empty_store)
    !! "sess-1" = Some (new_wizard_entry "+254733000009").
Proof.
  destruct (session_store_holds_wizard_entries env_up "sess-1" "*123#"
              "+254733000009" "2" empty_store "CON Enter your full name:"
              (set_sessions (insert "sess-1" (new_wizard_entry "+254733000009"))
                 empty_store)) as [Hinv Hnew].
  - apply sessions_wizard_only_empty.
  - vm_compute. reflexivity.
  - split; [exact Hinv|].
    destruct (Hnew "sess-1") as (_ & _ & _ & Hentry);
      [ vm_compute; reflexivity | vm_compute; eauto | exact Hentry ].
Defined.

(** * Further properties of the code *)

(** ** Case and blanks *)





Lemma lstrip_starts_clean s : starts_clean (PyStr.lstrip s).
Proof.
  induction s as [|c s IH]; cbn; [exact I|].
  destruct (PyStr.isspace c) eqn:E; [exact IH | exact E].
Qed.

Lemma lstrip_clean s : starts_clean s -> PyStr.lstrip s = s.
Proof. destruct s as [|c s]; cbn; [reflexivity|]. now intros ->. Qed.

Lemma rstrip_starts_clean s : starts_clean s -> starts_clean (PyStr.rstrip s).
Proof.
  destruct s as [|c s]; cbn; [auto|]. intros Hc.
  destruct (PyStr.rstrip s); cbn; [now rewrite Hc|exact Hc].
Qed.

Lemma rstrip_cons c s :
  PyStr.rstrip (String c s) =
    match PyStr.rstrip s with
    | EmptyString => if PyStr.isspace c then EmptyString else String c EmptyString
    | kept => String c kept
    end.
Proof. reflexivity. Qed.

Lemma rstrip_rstrip s : PyStr.rstrip (PyStr.rstrip s) = PyStr.rstrip s.
Proof.
  induction s as [|c s IH]; [reflexivity|].
  rewrite rstrip_cons. destruct (PyStr.rstrip s) as [|d k] eqn:E.
  - destruct (PyStr.isspace c) eqn:Hc; [reflexivity|].
    rewrite rstrip_cons. cbn. now rewrite Hc.
  - rewrite rstrip_cons, IH. reflexivity.
Qed.

(** Stripping twice is stripping once. *)
Lemma strip_strip s : PyStr.strip (PyStr.strip s) = PyStr.strip s.
Proof.
  unfold PyStr.strip.
  rewrite (lstrip_clean (PyStr.rstrip (PyStr.lstrip s)))
    by (apply rstrip_starts_clean, lstrip_starts_clean).
  apply rstrip_rstrip.
Qed.

(** ** The session manager *)

(** The round trips of the session manager: [set_session] then
    [get_session] gives the stored dictionary back, [clear_session] then [get_session] gives the empty dictionary (also
    when there was no entry), and neither touches the entry of another
    session. *)
Theorem session_set_clear_get session_id data st :
  (set_session session_id data;; get_session session_id) st
    = (Ok data, set_sessions (insert session_id data) st) /\
  (clear_session session_id;; get_session session_id) st
    = (Ok ∅, set_sessions (delete session_id) st) /\
  (forall other, other <> session_id ->
     (set_session session_id data;; get_session other) st
       = (Ok (session_of st other), set_sessions (insert session_id data) st) /\
     (clear_session session_id;; get_session other) st
       = (Ok (session_of st other), set_sessions (delete session_id) st)).
Proof.
  run_m. cbn [sessions set_sessions]. repeat split.
  - now rewrite lookup_insert_eq.
  - now rewrite lookup_delete_eq.
  - now rewrite lookup_insert_ne by congruence.
  - now rewrite lookup_delete_ne by congruence.
Qed.

(** X1. [update_session] writes one key of one session: afterwards the
    session has that key with the new value and every other key as before
    (a session without entry starts from the empty dictionary), and the
    other sessions are as before. *)
Theorem update_session_writes_one_key session_id key value st :
  exists data' st',
    (update_session session_id key value;; get_session session_id) st = (Ok data', st') /\
    data' !! key = Some value /\
    (forall k, k <> key -> data' !! k = session_of st session_id !! k) /\
    (forall other, other <> session_id -> sessions st' !! other = sessions st !! other) /\
    users_db st' = users_db st /\ emergency_reports st' = emergency_reports st.
Proof.
  cbv [mbind M_bind bind]. rewrite update_session_run.
  eexists _, _. split; [reflexivity|]. cbn [sessions set_sessions].
  rewrite lookup_insert_eq. cbn [default from_option id].
  split; [apply lookup_insert_eq|].
  split; [intros k Hk; now rewrite lookup_insert_ne by congruence|].
  split; [intros other Ho; now rewrite lookup_insert_ne by congruence|].
  split; reflexivity.
Qed.

(** ** The user table *)

Lemma dict_set_new {V} k (v : V) d :
  PyDict.get k d = None -> PyDict.set k v d = d ++ [(k, v)].
Proof.
  induction d as [|[k' v'] d IH]; cbn; [reflexivity|].
  destruct (String.eqb k' k); [discriminate|]. intros H. now rewrite IH.
Qed.

Lemma dict_set_keys {V} k (v old : V) d :
  PyDict.get k d = Some old -> map fst (PyDict.set k v d) = map fst d.
Proof.
  induction d as [|[k' v'] d IH]; cbn; [discriminate|].
  destruct (String.eqb_spec k' k) as [->|]; cbn; [reflexivity|].
  intros H. now rewrite IH.
Qed.

Lemma dict_get_None_keys {V} k (d : list (string * V)) :
  PyDict.get k d = None <-> ~ In k (map fst d).
Proof.
  induction d as [|[k' v'] d IH]; cbn; [tauto|].
  destruct (String.eqb_spec k' k) as [->|Hne].
  - split; [discriminate|]. intros H. exfalso. apply H. now left.
  - rewrite IH. tauto.
Qed.

(** X2. [register_user] and [get_user_by_phone]: the record registered for
    a phone is the one a lookup of that phone returns, stamped with the
    time of the call; lookups of other phones, the sessions and the
    reports are as before. *)
Theorem register_then_lookup env phone_number name location st :
  exists st',
    register_user env phone_number (Some name) (Some location) st
      = (Ok (User.mk phone_number name location (now env)), st') /\
    get_user_by_phone phone_number st'
      = (Ok (Some (User.mk phone_number name location (now env))), st') /\
    (forall other, other <> phone_number ->
       get_user_by_phone other st' = (Ok (PyDict.get other (users_db st)), st')) /\
    sessions st' = sessions st /\ emergency_reports st' = emergency_reports st.
Proof.
  unfold register_user. run_m. eexists. split; [reflexivity|].
  cbn [users_db set_users_db]. rewrite dict_get_set_eq.
  split; [reflexivity|].
  split; [intros other Ho; now rewrite dict_get_set_ne by congruence|].
  split; reflexivity.
Qed.

(** X3. The user table keeps insertion order: registering a phone that is
    not in the table appends the record at the end, so the table is one
    longer; registering a phone that is in the table replaces its record
    in place, so the phones and their order, and the size, stay. *)
Theorem register_keeps_insertion_order env phone_number name location st :
  exists user st',
    register_user env phone_number (Some name) (Some location) st = (Ok user, st') /\
    (PyDict.get phone_number (users_db st) = None ->
       users_db st' = users_db st ++ [(phone_number, user)]) /\
    (PyDict.get phone_number (users_db st) <> None ->
       map fst (users_db st') = map fst (users_db st) /\
       length (users_db st') = length (users_db st)).
Proof.
  unfold register_user. run_m. eexists _, _. split; [reflexivity|].
  cbn [users_db set_users_db]. split.
  - apply dict_set_new.
  - destruct (PyDict.get phone_number (users_db st)) as [old|] eqn:E; [|congruence].
    intros _. pose proof (dict_set_keys phone_number
      (User.mk phone_number name location (now env)) old _ E) as Hkeys.
    split; [exact Hkeys|].
    apply (f_equal (@length string)) in Hkeys. now rewrite !length_map in Hkeys.
Qed.

Lemma dict_set_Forall {V} (P : string * V -> Prop) k v d :
  P (k, v) -> Forall P d -> Forall P (PyDict.set k v d).
Proof.
  intros Hkv. induction 1 as [|[k' v'] d Hx Hd IH]; cbn.
  - constructor; [assumption|constructor].
  - destruct (String.eqb k' k); constructor; assumption.
Qed.

Lemma dict_set_NoDup {V} k (v : V) d :
  NoDup (map fst d) -> NoDup (map fst (PyDict.set k v d)).
Proof.
  intros Hd. destruct (PyDict.get k d) as [old|] eqn:E.
  - now rewrite (dict_set_keys _ _ _ _ E).
  - rewrite (dict_set_new _ _ _ E), map_app. cbn.
    apply NoDup_app. split; [assumption|]. split.
    + intros x Hx Hin. apply list_elem_of_In in Hx.
      apply list_elem_of_In in Hin. cbn in Hin. destruct Hin as [<-|[]].
      now apply dict_get_None_keys in E.
    + apply NoDup_singleton.
Qed.

Lemma users_db_consistent_set st phone user :
  User.phone_number user = phone ->
  users_db_consistent st ->
  users_db_consistent (set_users_db (PyDict.set phone user) st).
Proof.
  intros Hp [Hnd Hall]. split; cbn [users_db set_users_db].
  - now apply dict_set_NoDup.
  - now apply dict_set_Forall.
Qed.

(** The wizard writes the user table at the commit and nowhere else. *)
Lemma handle_registration_flow_users env session_id phone_number text text_array
    session_data st response st' :
  handle_registration_flow env session_id phone_number text text_array session_data st
    = (Ok response, st') ->
  users_db st' = users_db st \/
  (text = "1" /\ session_data !! "step" = Some "confirmation" /\
   exists name location,
     session_data !! "name" = Some name /\ session_data !! "location" = Some location /\
     users_db st' =
       PyDict.set phone_number (User.mk phone_number name location (now env))
                  (users_db st)).
Proof.
  wizard_cases session_data text; intros [= <- <-]; cbn [users_db set_sessions set_users_db];
    try (left; reflexivity).
  right. apply String.eqb_eq in H1. apply opt_is_true in Hconfirmation.
  split; [assumption|]. split; [assumption|]. eauto.
Qed.

Lemma menu_dispatch_users env sessionId phoneNumber text text_array st response st' :
  menu_dispatch env sessionId phoneNumber text text_array st = (Ok response, st') ->
  users_db st' = users_db st.
Proof.
  menu_cases text text_array;
    try (run_m; intros [= <- <-]; reflexivity).
  - run_m. destruct (PyDict.get phoneNumber (users_db st)); intros [= <- <-]; reflexivity.
  - destruct (confirm_alert_ok env sessionId phoneNumber alert_type st)
      as (r & st1 & -> & _ & _ & Hu).
    now intros [= <- <-].
Qed.

Lemma ussd_handler_users env sessionId serviceCode phoneNumber text st response st' :
  ussd_handler env sessionId serviceCode phoneNumber text st = (Ok response, st') ->
  users_db st' = users_db st \/
  (text = "1" /\
   session_of st sessionId !! "flow" = Some "registration" /\
   session_of st sessionId !! "step" = Some "confirmation" /\
   exists name location,
     session_of st sessionId !! "name" = Some name /\
     session_of st sessionId !! "location" = Some location /\
     users_db st' =
       PyDict.set phoneNumber (User.mk phoneNumber name location (now env))
                  (users_db st)).
Proof.
  rewrite ussd_handler_dispatch. destruct (opt_is _ "registration") eqn:Hflow.
  - intros H. apply handle_registration_flow_users in H as [H | (Ht & Hs & Hrest)];
      [now left|right].
    apply opt_is_true in Hflow. auto.
  - intros H. left. eapply menu_dispatch_users, H.
Qed.

(** X4. A request changes the user table in one situation only: the text
    "1" for a session whose wizard is at the confirmation step with both
    answers stored; the record written is made of those answers and goes
    under the phone of the request.  Every other request leaves the user
    table as it is. *)
Theorem users_db_written_only_by_commit env sessionId serviceCode phoneNumber text st :
  exists response st',
    ussd_handler env sessionId serviceCode phoneNumber text st = (Ok response, st') /\
    (users_db st' = users_db st \/
     (text = "1" /\
      session_of st sessionId !! "flow" = Some "registration" /\
      session_of st sessionId !! "step" = Some "confirmation" /\
      exists name location,
        session_of st sessionId !! "name" = Some name /\
        session_of st sessionId !! "location" = Some location /\
        users_db st' =
          PyDict.set phoneNumber (User.mk phoneNumber name location (now env))
                     (users_db st))).
Proof.
  destruct (ussd_handler_returns env sessionId serviceCode phoneNumber text st)
    as (r & st' & Hrun & _).
  exists r, st'. split; [assumption|]. eapply ussd_handler_users, Hrun.
Qed.

(** X5. The handler keeps the user table consistent: if every record sits
    under its own phone number and no phone occurs twice before a request,
    the same holds after it. *)
Theorem handler_keeps_users_db_consistent env sessionId serviceCode phoneNumber text st :
  users_db_consistent st ->
  exists response st',
    ussd_handler env sessionId serviceCode phoneNumber text st = (Ok response, st') /\
    users_db_consistent st'.
Proof.
  intros Hok.
  destruct (ussd_handler_returns env sessionId serviceCode phoneNumber text st)
    as (r & st' & Hrun & _).
  exists r, st'. split; [assumption|].
  apply ussd_handler_users in Hrun as [Hsame | (_ & _ & _ & n & l & _ & _ & Hset)].
  - unfold users_db_consistent in *. now rewrite Hsame.
  - pose proof (users_db_consistent_set st phoneNumber
                  (User.mk phoneNumber n l (now env)) eq_refl Hok) as H.
    unfold users_db_consistent in *. cbn [users_db set_users_db] in H. now rewrite Hset.
Qed.

Lemma westlands_store_consistent : users_db_consistent westlands_store.
Proof.
  split; cbn.
  - apply (bool_decide_unpack _). vm_compute. reflexivity.
  - repeat constructor.
Qed.

Lemma handler_keeps_users_db_consistent_witness :
  exists response st',
    ussd_handler env_up "sess-0001" "*123#" "+254712000001" "1*1*1" westlands_store
      = (Ok response, st') /\
    users_db_consistent st'.
Proof.
  exact (handler_keeps_users_db_consistent env_up "sess-0001" "*123#" "+254712000001"
           "1*1*1" westlands_store westlands_store_consistent).
Defined.

(** ** Users of a location *)


Lemma filter_sublist {A} (f : A -> bool) (l : list A) : sublist (List.filter f l) l.
Proof.
  induction l as [|x l IH]; cbn; [constructor|].
  destruct (f x); [now apply sublist_skip | now apply sublist_cons].
Qed.

Lemma consistent_phone_numbers st :
  users_db_consistent st ->
  map User.phone_number (map snd (users_db st)) = map fst (users_db st).
Proof.
  intros [_ Hall]. induction Hall as [|[k u] d Hx Hd IH]; cbn in *; [reflexivity|].
  now rewrite Hx, IH.
Qed.

(** X7. In a consistent user table the users [get_users_by_location]
    returns come in insertion order, without anybody left in twice: their
    phones are distinct and are a sublist of the phones of the table, so a
    fan-out never sends the same number twice. *)
Theorem get_users_by_location_distinct_in_order location st :
  users_db_consistent st ->
  sublist (map User.phone_number (get_users_by_location location st))
          (map fst (users_db st)) /\
  NoDup (map User.phone_number (get_users_by_location location st)).
Proof.
  intros Hok.
  assert (sublist (map User.phone_number (get_users_by_location location st))
                  (map fst (users_db st))) as Hsub.
  { rewrite <- (consistent_phone_numbers st Hok).
    apply (fmap_sublist User.phone_number), filter_sublist. }
  split; [exact Hsub|]. eapply sublist_NoDup; [apply Hok|exact Hsub].
Qed.

Lemma get_users_by_location_distinct_in_order_witness :
  NoDup (map User.phone_number (get_users_by_location "WESTLANDS" westlands_store)).
Proof.
  exact (proj2 (get_users_by_location_distinct_in_order "WESTLANDS" westlands_store
                  westlands_store_consistent)).
Defined.

(** ** Locations *)

Lemma get_location_from_phone_cases phone_number :
  get_location_from_phone phone_number = default_location \/
  In (get_location_from_phone phone_number) (map snd location_map).
Proof.
  unfold get_location_from_phone.
  destruct (List.find _ location_map) as [[p loc]|] eqn:E; [right|now left].
  apply find_some in E as [Hin _]. apply in_map_iff. now exists (p, loc).
Qed.

(** X8. Whatever the phone, the location found for it has an address and a
    landmark, so its text for the SMS starts with the address part and is
    never the placeholder "Location: Being determined"; it is a
    non-empty string. *)
Theorem located_phone_has_address phone_number :
  exists address rest,
    LocationInfo.address (get_location_from_phone phone_number) = Some address /\
    format_location_for_sms (get_location_from_phone phone_number)
      = "📍" +:+ address +:+ " | 🏢" +:+ rest /\
    format_location_for_sms (get_location_from_phone phone_number)
      <> "Location: Being determined".
Proof.
  destruct (get_location_from_phone_cases phone_number) as [-> | Hin].
  - eexists _, _. repeat split. discriminate.
  - cbn in Hin. destruct Hin as [<- | [<- | [<- | []]]];
      (eexists _, _; repeat split; discriminate).
Qed.

Lemma prefix_same_length p q s :
  String.prefix p s = true -> String.prefix q s = true ->
  String.length p = String.length q -> p = q.
Proof.
  revert q s. induction p as [|a p IH]; intros [|b q] [|c s]; cbn; try easy.
  destruct (ascii_dec a c) as [->|]; [|easy].
  destruct (ascii_dec b c) as [->|]; [|easy].
  intros Hp Hq [= Hlen]. f_equal. eapply IH; eassumption.
Qed.

(** X9. The prefix table is read as a function of the number, not of the
    order of its rows: a number that starts with a prefix of the table gets
    the location of that prefix, and a number that starts with none of
    them gets the default location, which has no coordinates. *)
Theorem location_follows_prefix phone_number :
  (forall prefix location,
      In (prefix, location) location_map ->
      PyStr.startswith phone_number prefix = true ->
      get_location_from_phone phone_number = location) /\
  ((forall prefix location,
       In (prefix, location) location_map ->
       PyStr.startswith phone_number prefix = false) ->
   get_location_from_phone phone_number = default_location /\
   LocationInfo.latitude (get_location_from_phone phone_number) = None).
Proof.
  split.
  - intros prefix location Hin Hstarts. unfold get_location_from_phone.
    destruct (List.find _ location_map) as [[p loc]|] eqn:E.
    + apply find_some in E as [Hin' Hp]. cbn [fst] in Hp.
      assert (String.length p = String.length prefix) as Hlen.
      { cbn in Hin, Hin'.
        destruct Hin as [Hin | [Hin | [Hin | []]]];
          destruct Hin' as [Hin' | [Hin' | [Hin' | []]]];
          inversion Hin; inversion Hin'; reflexivity. }
      assert (p = prefix) as Hsame
        by (unfold PyStr.startswith in *; eapply prefix_same_length; eassumption).
      cbn in Hin, Hin'.
      destruct Hin as [Hin | [Hin | [Hin | []]]];
        destruct Hin' as [Hin' | [Hin' | [Hin' | []]]];
        inversion Hin; inversion Hin'; congruence.
    + eapply find_none in E; [|exact Hin]. cbn [fst] in E. congruence.
  - intros Hnone. unfold get_location_from_phone.
    destruct (List.find _ location_map) as [[p loc]|] eqn:E; [|split; reflexivity].
    apply find_some in E as [Hin Hp]. cbn [fst] in Hp.
    rewrite (Hnone _ _ Hin) in Hp. discriminate Hp.
Qed.

(** X10. [format_location_for_sms] falls back on "Location: Being
    determined" exactly when the location has no address, no landmark and
    not both coordinates; as soon as one part is there the text is made of
    the parts. *)
Theorem format_location_placeholder location :
  format_location_for_sms location = "Location: Being determined" <->
  opt_truthy (LocationInfo.address location) = false /\
  opt_truthy (LocationInfo.landmark location) = false /\
  float_opt_truthy (LocationInfo.latitude location)
    && float_opt_truthy (LocationInfo.longitude location) = false.
Proof.
  unfold format_location_for_sms.
  destruct (opt_truthy (LocationInfo.address location)),
           (opt_truthy (LocationInfo.landmark location)),
           (float_opt_truthy (LocationInfo.latitude location)
              && float_opt_truthy (LocationInfo.longitude location));
    cbn; split; try (intros H; discriminate H); try (intros (? & ? & ?); discriminate);
    auto.
Qed.

(** ** Alerts to a location *)

(** The empty case: an alert to a location nobody is registered in makes
    no gateway call: the result is the warning with a count of 0 and the store is
    untouched. *)
Theorem send_alert_without_users env location message st :
  get_users_by_location location st = [] ->
  send_alert_to_location env location message st =
    (Ok {| alert_status := "warning";
           alert_message := "No registered users found in " +:+ location;
           sent_count := 0; alert_recipients := [] |}, st).
Proof.
  intros H. unfold send_alert_to_location. run_m. now rewrite H.
Qed.

Lemma send_alert_without_users_witness :
  send_alert_to_location env_up "Mars" "Alien invasion alert!" westlands_store =
    (Ok {| alert_status := "warning";
           alert_message := "No registered users found in Mars";
           sent_count := 0; alert_recipients := [] |}, westlands_store).
Proof.
  apply send_alert_without_users. reflexivity.
Defined.

(** X11. An alert to a location with registered users makes exactly one
    gateway call, with the message tagged by the location in upper case,
    to the phones of those users in insertion order.  It never raises: if
    the gateway answers the result is "success" with the number of
    recipients as count, if the gateway raises the result is "error" with
    count 0.  Sessions, users and reports are untouched. *)
Theorem send_alert_calls_gateway_once env location message st :
  get_users_by_location location st <> [] ->
  exists result call,
    send_alert_to_location env location message st = (Ok result, log_sms_call call st) /\
    sms_message call =
      "[KASA LOCATION ALERT - " +:+ PyStr.upper location +:+ "] " +:+ message /\
    sms_recipients call = map User.phone_number (get_users_by_location location st) /\
    match sms_send env call with
    | SmsSent _ =>
        alert_status result = "success" /\
        sent_count result = length (get_users_by_location location st)
    | SmsRaised _ => alert_status result = "error" /\ sent_count result = 0
    end.
Proof.
  intros Hne. unfold send_alert_to_location, sms_send_call. run_m.
  destruct (get_users_by_location location st) as [|u us] eqn:E; [congruence|].
  destruct (PyStr.truthy (AFRICAS_TALKING_SENDER_ID env)); cbn [fst snd].
  all: match goal with
       | |- context [sms_send ?e ?c] =>
           destruct (sms_send e c) eqn:Hsend;
           eexists _, c; (split; [reflexivity|]); rewrite Hsend, ?length_map;
           repeat split
       end.
Qed.

Lemma send_alert_calls_gateway_once_witness :
  exists result call,
    send_alert_to_location env_down "westlands" "Road closed" westlands_store
      = (Ok result, log_sms_call call westlands_store) /\
    sms_recipients call = ["+254712000001"; "+254712000002"] /\
    sent_count result = 0.
Proof.
  destruct (send_alert_calls_gateway_once env_down "westlands" "Road closed"
              westlands_store) as (result & call & Hrun & _ & Hto & Hout);
    [vm_compute; discriminate|].
  exists result, call. split; [exact Hrun|]. split; [exact Hto|]. apply Hout.
Defined.

(** ** Validation of alert requests *)

Lemma truthy_false s : PyStr.truthy s = false <-> s = "".
Proof.
  unfold PyStr.truthy. destruct (String.eqb_spec s ""); cbn; split; congruence.
Qed.

(** The test [not v or not v.strip()] is the test that nothing but blanks
    is there. *)
Lemma blank_test v :
  negb (PyStr.truthy v) || negb (PyStr.truthy (PyStr.strip v)) = true
  <-> PyStr.strip v = "".
Proof.
  rewrite orb_true_iff, !negb_true_iff, !truthy_false. split; [|auto].
  intros [-> | H]; [reflexivity | exact H].
Qed.

(** X12. [validate_message] stores the message without its surrounding
    blanks: an accepted value is the stripped input, is not empty, has at
    most 160 characters, and passes the validator again unchanged. *)
Theorem validate_message_accepts_stripped v message :
  AlertRequest.validate_message v = Accepted message ->
  message = PyStr.strip v /\ message <> "" /\ String.length message <= 160 /\
  AlertRequest.validate_message message = Accepted message.
Proof.
  unfold AlertRequest.validate_message.
  destruct (negb (PyStr.truthy v) || negb (PyStr.truthy (PyStr.strip v))) eqn:Hblank;
    [discriminate|].
  destruct (160 <? String.length (PyStr.strip v)) eqn:Hlong; [discriminate|].
  intros [= <-].
  assert (PyStr.strip v <> "") as Hne.
  { intros H. apply blank_test in H. congruence. }
  apply Nat.ltb_ge in Hlong.
  split; [reflexivity|]. split; [assumption|]. split; [assumption|].
  rewrite strip_strip.
  destruct (negb (PyStr.truthy (PyStr.strip v)) || negb (PyStr.truthy (PyStr.strip v)))
    eqn:Hblank'.
  - apply orb_true_iff in Hblank' as [H|H];
      apply negb_true_iff, truthy_false in H; contradiction.
  - now apply Nat.ltb_ge in Hlong as ->.
Qed.

Lemma validate_message_accepts_stripped_witness :
  AlertRequest.validate_message "Flood warning" = Accepted "Flood warning".
Proof.
  apply (validate_message_accepts_stripped "  Flood warning  " "Flood warning").
  reflexivity.
Defined.

(** X13. [validate_message] rejects exactly the messages that are blank or
    longer than 160 characters once stripped, each with its own error. *)
Theorem validate_message_rejections v :
  (PyStr.strip v = "" ->
   AlertRequest.validate_message v = ValueError "Message cannot be empty") /\
  (160 < String.length (PyStr.strip v) ->
   AlertRequest.validate_message v = ValueError "Message cannot exceed 160 characters") /\
  (PyStr.strip v <> "" -> String.length (PyStr.strip v) <= 160 ->
   AlertRequest.validate_message v = Accepted (PyStr.strip v)).
Proof.
  unfold AlertRequest.validate_message.
  destruct (negb (PyStr.truthy v) || negb (PyStr.truthy (PyStr.strip v))) eqn:Hblank.
  - apply blank_test in Hblank.
    split; [reflexivity|].
    split; [rewrite Hblank; cbn; lia | intros Hne; contradiction].
  - assert (PyStr.strip v <> "") as Hne.
    { intros H. apply blank_test in H. congruence. }
    split; [intros H; contradiction|].
    destruct (Nat.ltb_spec 160 (String.length (PyStr.strip v)));
      (split; [intros ?|intros _ ?]); try reflexivity; lia.
Qed.

Lemma check_phones_None v :
  AlertRequest.check_phones v = None <->
  Forall (fun phone => PyStr.startswith phone "+" = true /\ 10 <= String.length phone) v.
Proof.
  induction v as [|phone v IH]; [split; [constructor|reflexivity]|].
  cbn [AlertRequest.check_phones].
  destruct (PyStr.startswith phone "+") eqn:Hplus; cbn [negb].
  - destruct (Nat.ltb_spec (String.length phone) 10) as [Hlt|Hge].
    + split; [intros H; discriminate H|].
      intros H. inversion H as [|? ? [_ Hlen] _]. lia.
    + rewrite IH. split; [intros H; constructor; auto | intros H; now inversion H].
  - split; [intros H; discriminate H|].
    intros H. inversion H as [|? ? [Habs _] _]. congruence.
Qed.

(** X14. [validate_recipients] accepts a list exactly when it is not empty
    and every number starts with "+" and has at least 10 characters; an
    accepted list is stored as given. *)
Theorem validate_recipients_accepts v :
  (AlertRequest.validate_recipients v = Accepted v <->
   v <> [] /\
   Forall (fun phone => PyStr.startswith phone "+" = true /\ 10 <= String.length phone) v)
  /\
  (forall stored, AlertRequest.validate_recipients v = Accepted stored -> stored = v).
Proof.
  unfold AlertRequest.validate_recipients. destruct v as [|phone v].
  - split; [split; [intros H; discriminate H | intros [H _]; congruence]
           | intros stored H; discriminate H].
  - destruct (AlertRequest.check_phones (phone :: v)) as [message|] eqn:E.
    + split; [|intros stored H; discriminate H]. split; [intros H; discriminate H|].
      intros [_ H]. apply check_phones_None in H. congruence.
    + split; [|now intros stored [= <-]].
      split; [|reflexivity]. intros _. split; [discriminate|].
      now apply check_phones_None.
Qed.

(** X15. [POST /send-location-alert]: a message that is blank, or longer
    than 140 characters once stripped, is refused with status 400 before
    anything is sent and the store is untouched; any other message is sent
    stripped through [send_alert_to_location], whose result is the answer;
    the endpoint never answers 500. *)
Theorem location_alert_endpoint_checks_message env location message st :
  (PyStr.strip message = "" ->
   send_location_alert_endpoint env location message st
     = (HttpError 400 "Message cannot be empty", st)) /\
  (140 < String.length (PyStr.strip message) ->
   send_location_alert_endpoint env location message st
     = (HttpError 400 "Message too long (max 140 characters)", st)) /\
  (PyStr.strip message <> "" -> String.length (PyStr.strip message) <= 140 ->
   exists result st',
     send_alert_to_location env location (PyStr.strip message) st = (Ok result, st') /\
     send_location_alert_endpoint env location message st = (HttpOk result, st') /\
     sessions st' = sessions st /\ users_db st' = users_db st /\
     emergency_reports st' = emergency_reports st).
Proof.
  unfold send_location_alert_endpoint.
  destruct (negb (PyStr.truthy message) || negb (PyStr.truthy (PyStr.strip message)))
    eqn:Hblank.
  - apply blank_test in Hblank.
    split; [reflexivity|].
    split; [rewrite Hblank; cbn; lia | intros Hne; contradiction].
  - assert (PyStr.strip message <> "") as Hne.
    { intros H. apply blank_test in H. congruence. }
    split; [intros H; contradiction|].
    destruct (Nat.ltb_spec 140 (String.length (PyStr.strip message))).
    + split; [reflexivity | intros _ ?; lia].
    + split; [intros ?; lia|]. intros _ _.
      destruct (send_alert_to_location_ok env location (PyStr.strip message) st)
        as (result & st' & Hrun & Hs & Hu & Hr).
      exists result, st'. rewrite Hrun. auto.
Qed.

(** ** The list of users and its summary *)

Lemma sum_counts_set k v d :
  sum_counts (PyDict.set k v d) + default 0 (PyDict.get k d) = sum_counts d + v.
Proof.
  unfold sum_counts. induction d as [|[k' v'] d IH]; cbn; [lia|].
  destruct (String.eqb k' k); cbn in *; lia.
Qed.

Lemma count_locations_sum users_list location_summary :
  sum_counts (count_locations users_list location_summary)
    = sum_counts location_summary + length users_list.
Proof.
  revert location_summary.
  induction users_list as [|user rest IH]; intros d; cbn [count_locations length];
    [lia|].
  rewrite IH.
  pose proof (sum_counts_set (UserEntry.location user)
    (default 0 (PyDict.get (UserEntry.location user)
       match PyDict.get (UserEntry.location user) d with
       | Some _ => d
       | None => PyDict.set (UserEntry.location user) 0 d
       end) + 1)
    match PyDict.get (UserEntry.location user) d with
    | Some _ => d
    | None => PyDict.set (UserEntry.location user) 0 d
    end) as Hset.
  destruct (PyDict.get (UserEntry.location user) d) as [old|] eqn:E.
  - rewrite E in Hset. cbn in Hset. rewrite E. cbn. lia.
  - rewrite dict_get_set_eq in Hset. cbn in Hset.
    pose proof (sum_counts_set (UserEntry.location user) 0 d) as Hnew.
    rewrite E in Hnew. cbn in Hnew. rewrite dict_get_set_eq. cbn. lia.
Qed.

(** X16. [GET /users] lists every record of the user table once, in
    insertion order, and the counts of its location summary add up to the
    total it reports. *)
Theorem users_summary_adds_up env st :
  AllUsers.users (get_all_users env st) = map user_entry (map snd (users_db st)) /\
  AllUsers.total_users (get_all_users env st) = length (users_db st) /\
  sum_counts (AllUsers.location_summary (get_all_users env st))
    = AllUsers.total_users (get_all_users env st).
Proof.
  unfold get_all_users. cbn [AllUsers.users AllUsers.total_users AllUsers.location_summary].
  split; [now rewrite map_map|]. split; [apply length_map|].
  rewrite count_locations_sum. reflexivity.
Qed.

Lemma count_locations_get location users_list location_summary :
  PyDict.get location (count_locations users_list location_summary) =
    match List.filter (fun user => String.eqb (UserEntry.location user) location) users_list with
    | [] => PyDict.get location location_summary
    | found => Some (default 0 (PyDict.get location location_summary) + length found)
    end.
Proof.
  revert location_summary.
  induction users_list as [|user rest IH]; intros d; cbn [count_locations List.filter];
    [reflexivity|].
  rewrite IH. clear IH.
  destruct (String.eqb_spec (UserEntry.location user) location) as [Heq|Hne].
  - rewrite Heq, dict_get_set_eq.
    assert (default 0 (PyDict.get location
              match PyDict.get location d with
              | Some _ => d
              | None => PyDict.set location 0 d
              end) = default 0 (PyDict.get location d)) as ->.
    { destruct (PyDict.get location d) eqn:E; [now rewrite E|].
      now rewrite dict_get_set_eq. }
    cbn [default from_option id length].
    destruct (List.filter _ rest); cbn [length]; f_equal; lia.
  - rewrite dict_get_set_ne by assumption.
    destruct (PyDict.get (UserEntry.location user) d);
      [reflexivity | now rewrite dict_get_set_ne by assumption].
Qed.

Lemma filter_map_entries location (us : list User.t) :
  List.filter (fun user => String.eqb (UserEntry.location user) location)
              (map user_entry us)
  = map user_entry (List.filter (fun user => String.eqb (User.location user) location) us).
Proof.
  induction us as [|u us IH]; cbn; [reflexivity|].
  destruct (String.eqb (User.location u) location); cbn; now rewrite IH.
Qed.

Lemma filter_length_le {A} (f g : A -> bool) l :
  (forall x, f x = true -> g x = true) ->
  length (List.filter f l) <= length (List.filter g l).
Proof.
  intros Himp. induction l as [|x l IH]; cbn; [lia|].
  destruct (f x) eqn:Hf; [rewrite (Himp x Hf); cbn; lia|].
  destruct (g x); cbn; lia.
Qed.

(** X17. The location summary of [GET /users] groups by the location as
    written: a location has an entry exactly when some user has exactly
    that location string, and the entry counts those users.  The grouping
    is case-sensitive, so the count never exceeds the number of users
    [get_users_by_location] returns for the same string. *)
Theorem location_summary_counts_exact env location st :
  PyDict.get location (AllUsers.location_summary (get_all_users env st)) =
    match users_with_location location st with
    | [] => None
    | found => Some (length found)
    end /\
  length (users_with_location location st)
    <= length (get_users_by_location location st).
Proof.
  split.
  - unfold get_all_users, users_with_location. cbn [AllUsers.location_summary].
    rewrite count_locations_get. rewrite <- map_map, filter_map_entries.
    destruct (List.filter _ (map snd (users_db st))) as [|u us]; [reflexivity|].
    cbn [map length default from_option id PyDict.get]. f_equal. cbn.
    now rewrite length_map.
  - apply filter_length_le. intros u H%String.eqb_eq. rewrite H.
    apply String.eqb_refl.
Qed.

(** ** The import of rows *)

(** What one row does: it is counted as an error or as a duplicate and the
    store stays, or it registers a phone that was not in the table. *)
Lemma import_row_cases env row_num row acc st acc' st' :
  import_row env row_num row acc st = (acc', st') ->
  (st' = st /\
   ImportAcc.imported_users acc' = ImportAcc.imported_users acc /\
   length (ImportAcc.errors acc') + ImportAcc.duplicate_count acc'
     = length (ImportAcc.errors acc) + ImportAcc.duplicate_count acc + 1) \/
  (exists raw_name raw_phone raw_location,
     let user := User.mk (PyStr.strip raw_phone) (PyStr.strip raw_name)
                         (PyStr.strip raw_location) (now env) in
     row = CsvRow.mk (Some raw_name) (Some raw_phone) (Some raw_location) /\
     PyStr.strip raw_name <> "" /\ PyStr.strip raw_location <> "" /\
     PyStr.startswith (PyStr.strip raw_phone) "+" = true /\
     PyDict.get (PyStr.strip raw_phone) (users_db st) = None /\
     st' = set_users_db (PyDict.set (PyStr.strip raw_phone) user) st /\
     acc' = ImportAcc.mk (ImportAcc.imported_users acc ++ [user_entry user])
                         (ImportAcc.errors acc) (ImportAcc.duplicate_count acc)).
Proof.
  unfold import_row, register_user, add_error. run_m.
  destruct row as [[raw_name|] [raw_phone|] [raw_location|]];
    cbn [CsvRow.name CsvRow.phone CsvRow.location];
    try (intros [= <- <-]; left; cbn; rewrite ?length_app; cbn; repeat split; lia).
  destruct (PyStr.truthy (PyStr.strip raw_name)) eqn:Hn; cbn [negb orb];
    [|intros [= <- <-]; left; cbn; rewrite ?length_app; cbn; repeat split; lia].
  destruct (PyStr.truthy (PyStr.strip raw_phone)) eqn:Hp; cbn [negb orb];
    [|intros [= <- <-]; left; cbn; rewrite ?length_app; cbn; repeat split; lia].
  destruct (PyStr.truthy (PyStr.strip raw_location)) eqn:Hl; cbn [negb orb];
    [|intros [= <- <-]; left; cbn; rewrite ?length_app; cbn; repeat split; lia].
  destruct (PyStr.startswith (PyStr.strip raw_phone) "+") eqn:Hplus; cbn [negb];
    [|intros [= <- <-]; left; cbn; rewrite ?length_app; cbn; repeat split; lia].
  destruct (PyDict.get (PyStr.strip raw_phone) (users_db st)) eqn:Hget;
    intros [= <- <-]; [left; cbn; repeat split; lia|].
  right. exists raw_name, raw_phone, raw_location. cbn.
  apply truthy_true in Hn, Hl. repeat split; auto.
Qed.

Lemma import_rows_cons env row_num row rest acc st :
  import_rows env row_num (row :: rest) acc st =
    import_rows env (S row_num) rest (fst (import_row env row_num row acc st))
                (snd (import_row env row_num row acc st)).
Proof. cbn. now destruct (import_row env row_num row acc st). Qed.

(** The loop never replaces a record and only touches the user table. *)
Lemma import_rows_keeps env rows row_num acc st acc' st' :
  import_rows env row_num rows acc st = (acc', st') ->
  (forall phone user,
      PyDict.get phone (users_db st) = Some user ->
      PyDict.get phone (users_db st') = Some user) /\
  sessions st' = sessions st /\ emergency_reports st' = emergency_reports st /\
  sms_calls st' = sms_calls st.
Proof.
  revert row_num acc st. induction rows as [|row rest IH]; intros row_num acc st.
  - intros [= <- <-]. auto.
  - rewrite import_rows_cons.
    destruct (import_row env row_num row acc st) as [acc1 st1] eqn:Hrow. cbn [fst snd].
    intros Hrest. apply IH in Hrest as (Hkeep & Hs & Hr & Hc).
    apply import_row_cases in Hrow
      as [(-> & _) | (rn & rp & rl & _ & _ & _ & _ & Hnew & -> & _)]; [auto|].
    split; [|auto].
    intros phone user Hget. apply Hkeep. cbn [users_db set_users_db].
    rewrite dict_get_set_ne; [assumption|]. intros <-. congruence.
Qed.

(** Every row is counted once, and the table grows by the imports. *)
Lemma import_rows_counts env rows row_num acc st acc' st' :
  import_rows env row_num rows acc st = (acc', st') ->
  length (ImportAcc.imported_users acc') + length (ImportAcc.errors acc')
    + ImportAcc.duplicate_count acc'
  = length (ImportAcc.imported_users acc) + length (ImportAcc.errors acc)
    + ImportAcc.duplicate_count acc + length rows /\
  length (users_db st') + length (ImportAcc.imported_users acc)
  = length (users_db st) + length (ImportAcc.imported_users acc').
Proof.
  revert row_num acc st. induction rows as [|row rest IH]; intros row_num acc st.
  - intros [= <- <-]. cbn. lia.
  - rewrite import_rows_cons.
    destruct (import_row env row_num row acc st) as [acc1 st1] eqn:Hrow. cbn [fst snd].
    intros Hrest. apply IH in Hrest as [Hcount Hsize].
    apply import_row_cases in Hrow
      as [(-> & Himp & Herr) | (rn & rp & rl & _ & _ & _ & _ & Hnew & -> & ->)].
    + rewrite Himp in *. cbn [length]. lia.
    + cbn [ImportAcc.imported_users ImportAcc.errors ImportAcc.duplicate_count
           users_db set_users_db] in *.
      rewrite (dict_set_new _ _ _ Hnew) in Hsize.
      rewrite !length_app in *. cbn [length] in *. lia.
Qed.

(** The imported entries stay retrievable, and their phones are distinct. *)
Lemma import_rows_imported env rows row_num acc st acc' st' :
  import_rows env row_num rows acc st = (acc', st') ->
  Forall (imported_ok (users_db st)) (ImportAcc.imported_users acc) ->
  NoDup (map UserEntry.phone (ImportAcc.imported_users acc)) ->
  Forall (imported_ok (users_db st')) (ImportAcc.imported_users acc') /\
  NoDup (map UserEntry.phone (ImportAcc.imported_users acc')).
Proof.
  revert row_num acc st. induction rows as [|row rest IH]; intros row_num acc st.
  - intros [= <- <-]. auto.
  - rewrite import_rows_cons.
    destruct (import_row env row_num row acc st) as [acc1 st1] eqn:Hrow. cbn [fst snd].
    intros Hrest Hok Hnd.
    apply import_row_cases in Hrow
      as [(-> & Himp & _) | (rn & rp & rl & _ & Hn & Hl & Hplus & Hnew & -> & ->)].
    + apply (IH _ _ _ Hrest); now rewrite Himp.
    + apply (IH _ _ _ Hrest);
        cbn [ImportAcc.imported_users users_db set_users_db].
      * apply Forall_app. split.
        -- eapply Forall_impl; [exact Hok|].
           intros e (Hget & Hrest'). split; [|exact Hrest'].
           rewrite dict_get_set_ne; [assumption|]. intros Heq. congruence.
        -- constructor; [|constructor]. unfold imported_ok, user_entry.
           cbn [UserEntry.phone UserEntry.name UserEntry.location
                UserEntry.registration_date User.name User.phone_number User.location
                User.registration_date].
           rewrite dict_get_set_eq, !strip_strip. auto 10.
      * rewrite map_app. cbn. apply NoDup_app. split; [assumption|].
        split; [|apply NoDup_singleton].
        intros phone Hin Hin'. apply list_elem_of_In in Hin'. cbn in Hin'.
        destruct Hin' as [<-|[]]. apply list_elem_of_In, in_map_iff in Hin
          as (e & He & Hin). apply list_elem_of_In in Hin.
        rewrite Forall_forall in Hok. destruct (Hok e Hin) as [Hget _].
        rewrite He in Hget. congruence.
Qed.

Lemma import_rows_consistent env rows row_num acc st acc' st' :
  import_rows env row_num rows acc st = (acc', st') ->
  users_db_consistent st -> users_db_consistent st'.
Proof.
  revert row_num acc st. induction rows as [|row rest IH]; intros row_num acc st.
  - now intros [= <- <-].
  - rewrite import_rows_cons.
    destruct (import_row env row_num row acc st) as [acc1 st1] eqn:Hrow. cbn [fst snd].
    intros Hrest Hok. apply (IH _ _ _ Hrest).
    apply import_row_cases in Hrow
      as [(-> & _) | (rn & rp & rl & _ & _ & _ & _ & _ & -> & _)]; [assumption|].
    now apply users_db_consistent_set.
Qed.

(** X18. The import never replaces a record: every phone registered before
    the upload has the same record after it, whatever the rows say, and
    the upload touches neither sessions, nor reports, nor the gateway. *)
Theorem import_never_overwrites env rows st :
  exists summary st',
    upload_rows env rows st = (summary, st') /\
    (forall phone user,
        PyDict.get phone (users_db st) = Some user ->
        PyDict.get phone (users_db st') = Some user) /\
    sessions st' = sessions st /\ emergency_reports st' = emergency_reports st /\
    sms_calls st' = sms_calls st.
Proof.
  unfold upload_rows.
  destruct (import_rows env 2 rows import_start st) as [acc st'] eqn:Hloop.
  eexists _, _. split; [reflexivity|]. eapply import_rows_keeps, Hloop.
Qed.

(** X19. The import accounts for every row exactly once, as imported, as
    an error or as a duplicate; the user table grows by the number of
    imported rows; at most 10 errors are shown, and [has_more_errors] tells
    whether there were more. *)
Theorem import_counts_every_row env rows st :
  exists summary st',
    upload_rows env rows st = (summary, st') /\
    UploadSummary.imported_count summary + UploadSummary.error_count summary
      + UploadSummary.duplicate_count summary = length rows /\
    UploadSummary.imported_count summary = length (UploadSummary.imported_users summary) /\
    UploadSummary.total_users_now summary
      = length (users_db st) + UploadSummary.imported_count summary /\
    length (UploadSummary.errors summary) = Nat.min 10 (UploadSummary.error_count summary) /\
    (UploadSummary.has_more_errors summary = true <->
     10 < UploadSummary.error_count summary).
Proof.
  unfold upload_rows.
  destruct (import_rows env 2 rows import_start st) as [acc st'] eqn:Hloop.
  eexists _, _. split; [reflexivity|].
  apply import_rows_counts in Hloop as [Hcount Hsize]. cbn in Hcount, Hsize.
  cbn [UploadSummary.imported_count UploadSummary.error_count
       UploadSummary.duplicate_count UploadSummary.total_users_now
       UploadSummary.imported_users UploadSummary.errors UploadSummary.has_more_errors].
  split; [lia|]. split; [reflexivity|]. split; [lia|].
  split; [apply length_firstn | apply Nat.ltb_lt].
Qed.

(** X20. Every row the import reports as imported is in the user table
    afterwards, under its phone, with the name and location of the row
    without their surrounding blanks; none of these is empty, the phone has
    a country code, and no phone is imported twice: of two rows for the
    same phone the first one wins. *)
Theorem imported_rows_are_registered env rows st :
  exists summary st',
    upload_rows env rows st = (summary, st') /\
    Forall (imported_ok (users_db st')) (UploadSummary.imported_users summary) /\
    NoDup (map UserEntry.phone (UploadSummary.imported_users summary)).
Proof.
  unfold upload_rows.
  destruct (import_rows env 2 rows import_start st) as [acc st'] eqn:Hloop.
  eexists _, _. split; [reflexivity|].
  cbn [UploadSummary.imported_users].
  apply (import_rows_imported _ _ _ _ _ _ _ Hloop); cbn; constructor.
Qed.

(** X21. The import keeps the user table consistent: records under their
    own phone number, no phone twice. *)
Theorem import_keeps_users_db_consistent env rows st :
  users_db_consistent st ->
  exists summary st',
    upload_rows env rows st = (summary, st') /\ users_db_consistent st'.
Proof.
  intros Hok. unfold upload_rows.
  destruct (import_rows env 2 rows import_start st) as [acc st'] eqn:Hloop.
  eexists _, _. split; [reflexivity|]. eapply import_rows_consistent; eassumption.
Qed.

Lemma import_keeps_users_db_consistent_witness :
  exists summary st',
    upload_rows env_up sample_rows westlands_store = (summary, st') /\
    users_db_consistent st'.
Proof.
  exact (import_keeps_users_db_consistent env_up sample_rows westlands_store
           westlands_store_consistent).
Defined.

(** The sample file: one row imported, one duplicate, one error. *)
Lemma upload_sample_rows :
  exists summary st',
    upload_rows env_up sample_rows westlands_store = (summary, st') /\
    UploadSummary.imported_count summary = 1 /\
    UploadSummary.duplicate_count summary = 1 /\
    UploadSummary.errors summary
      = ["Row 4: Phone number must include country code (e.g., +254...)"] /\
    PyDict.get "+254744000004" (users_db st')
      = Some (User.mk "+254744000004" "Dalila" "Karen" (now env_up)) /\
    PyDict.get "+254712000001" (users_db st')
      = Some (User.mk "+254712000001" "Amina" "Westlands" "2025-06-20T08:00:00.000000").
Proof.
  eexists _, _. split; [vm_compute; reflexivity|]. repeat split.
Qed.

(** ** The steps of the wizard *)

(** With a stored wizard entry the handler is the wizard on that entry. *)
Lemma ussd_handler_in_wizard env sessionId serviceCode phoneNumber text st data :
  sessions st !! sessionId = Some data ->
  data !! "flow" = Some "registration" ->
  ussd_handler env sessionId serviceCode phoneNumber text st =
    handle_registration_flow env sessionId phoneNumber text (text_array_of text) data st.
Proof.
  intros Hd Hflow. rewrite ussd_handler_dispatch, Hd. cbn [default from_option id].
  rewrite Hflow. cbn [opt_is]. now rewrite String.eqb_refl.
Qed.

Lemma not_blank_truthy text :
  PyStr.strip text <> "" ->
  PyStr.truthy text && PyStr.truthy (PyStr.strip text) = true.
Proof.
  intros H. apply andb_true_iff. split; apply truthy_true; [|assumption].
  intros ->. now apply H.
Qed.

Lemma blank_not_truthy text :
  PyStr.strip text = "" ->
  PyStr.truthy text && PyStr.truthy (PyStr.strip text) = false.
Proof.
  intros H. apply andb_false_iff. right. now apply truthy_false.
Qed.

Lemma wizard_step_name env sessionId serviceCode phoneNumber text st data :
  sessions st !! sessionId = Some data ->
  data !! "flow" = Some "registration" ->
  data !! "step" = Some "name" ->
  PyStr.strip text <> "" ->
  ussd_handler env sessionId serviceCode phoneNumber text st =
    (Ok (USSDSession.get_registration_location_prompt (PyStr.strip text)),
     set_sessions
       (insert sessionId (<["step" := "location"]> (<["name" := PyStr.strip text]> data)))
       st).
Proof.
  intros Hd Hflow Hstep Htext.
  rewrite (ussd_handler_in_wizard _ _ _ _ _ _ _ Hd Hflow).
  unfold handle_registration_flow, handle_registration_flow_body.
  rewrite Hstep. cbn [opt_is String.eqb Ascii.eqb Bool.eqb].
  rewrite (not_blank_truthy _ Htext).
  cbv [mbind M_bind bind try_except mret M_ret ret].
  rewrite update_session_run, update_session_run.
  unfold set_sessions. cbn [sessions users_db emergency_reports sms_calls].
  rewrite Hd, lookup_insert_eq.
  cbn [default from_option id]. rewrite insert_insert_eq. reflexivity.
Qed.

Lemma wizard_step_location env sessionId serviceCode phoneNumber text st data :
  sessions st !! sessionId = Some data ->
  data !! "flow" = Some "registration" ->
  data !! "step" = Some "location" ->
  PyStr.strip text <> "" ->
  ussd_handler env sessionId serviceCode phoneNumber text st =
    (Ok (USSDSession.get_registration_confirmation (data !! "name")
           (Some (PyStr.strip text))),
     set_sessions
       (insert sessionId
          (<["step" := "confirmation"]> (<["location" := PyStr.strip text]> data)))
       st).
Proof.
  intros Hd Hflow Hstep Htext.
  rewrite (ussd_handler_in_wizard _ _ _ _ _ _ _ Hd Hflow).
  unfold handle_registration_flow, handle_registration_flow_body.
  rewrite Hstep. cbn [opt_is String.eqb Ascii.eqb Bool.eqb].
  rewrite (not_blank_truthy _ Htext).
  cbv [mbind M_bind bind try_except mret M_ret ret].
  rewrite update_session_run, update_session_run.
  unfold set_sessions. cbn [sessions users_db emergency_reports sms_calls].
  rewrite Hd, lookup_insert_eq.
  cbn [default from_option id]. rewrite insert_insert_eq. reflexivity.
Qed.

Lemma wizard_step_commit env sessionId serviceCode phoneNumber st data name location :
  sessions st !! sessionId = Some data ->
  data !! "flow" = Some "registration" ->
  data !! "step" = Some "confirmation" ->
  data !! "name" = Some name ->
  data !! "location" = Some location ->
  ussd_handler env sessionId serviceCode phoneNumber "1" st =
    (Ok ("END Registration successful!" +:+ LF +:+ "Name: " +:+ name +:+ LF +:+
         "Location: " +:+ location +:+ LF +:+ "Phone: " +:+ phoneNumber +:+ LF +:+
         "You can now receive location alerts!"),
     set_sessions (delete sessionId)
       (set_users_db
          (PyDict.set phoneNumber (User.mk phoneNumber name location (now env))) st)).
Proof.
  intros Hd Hflow Hstep Hname Hloc.
  rewrite (ussd_handler_in_wizard _ _ _ _ _ _ _ Hd Hflow).
  unfold handle_registration_flow, handle_registration_flow_body, register_user.
  rewrite Hstep, Hname, Hloc. reflexivity.
Qed.

(** X22. The wizard stores what was typed, without its surrounding blanks:
    at the step "name" a non-blank text becomes the name and the step
    becomes "location"; at the step "location" a non-blank text becomes the
    location and the step becomes "confirmation", the name staying as
    stored.  Neither step touches the user table. *)
Theorem wizard_stores_stripped_answers env sessionId serviceCode phoneNumber text st data :
  sessions st !! sessionId = Some data ->
  data !! "flow" = Some "registration" ->
  PyStr.strip text <> "" ->
  (data !! "step" = Some "name" ->
   exists st',
     ussd_handler env sessionId serviceCode phoneNumber text st =
       (Ok (USSDSession.get_registration_location_prompt (PyStr.strip text)), st') /\
     session_of st' sessionId !! "name" = Some (PyStr.strip text) /\
     session_of st' sessionId !! "step" = Some "location" /\
     session_of st' sessionId !! "flow" = Some "registration" /\
     users_db st' = users_db st) /\
  (data !! "step" = Some "location" ->
   exists st',
     ussd_handler env sessionId serviceCode phoneNumber text st =
       (Ok (USSDSession.get_registration_confirmation (data !! "name")
              (Some (PyStr.strip text))), st') /\
     session_of st' sessionId !! "location" = Some (PyStr.strip text) /\
     session_of st' sessionId !! "step" = Some "confirmation" /\
     session_of st' sessionId !! "name" = data !! "name" /\
     session_of st' sessionId !! "flow" = Some "registration" /\
     users_db st' = users_db st).
Proof.
  intros Hd Hflow Htext. split; intros Hstep.
  - rewrite (wizard_step_name _ _ _ _ _ _ _ Hd Hflow Hstep Htext).
    eexists. split; [reflexivity|]. cbn [sessions set_sessions users_db].
    rewrite lookup_insert_eq. cbn [default from_option id].
    repeat split; simplify_map_eq; auto.
  - rewrite (wizard_step_location _ _ _ _ _ _ _ Hd Hflow Hstep Htext).
    eexists. split; [reflexivity|]. cbn [sessions set_sessions users_db].
    rewrite lookup_insert_eq. cbn [default from_option id].
    repeat split; simplify_map_eq; auto.
Qed.

Lemma wizard_stores_stripped_answers_witness :
  exists st',
    ussd_handler env_up "s-eve" "*123#" "+254733000009" "  Mombasa " locating_store =
      (Ok (USSDSession.get_registration_confirmation (Some "Eve") (Some "Mombasa")), st') /\
    session_of st' "s-eve" !! "location" = Some "Mombasa".
Proof.
  destruct (wizard_stores_stripped_answers env_up "s-eve" "*123#" "+254733000009"
              "  Mombasa " locating_store locating_entry) as [_ Hloc];
    [vm_compute; reflexivity | vm_compute; reflexivity | vm_compute; discriminate |].
  destruct Hloc as (st' & Hrun & Hl & _); [vm_compute; reflexivity|].
  exists st'. split; [exact Hrun | exact Hl].
Defined.

(** X23. A blank answer does not advance the wizard: at the steps "name"
    and "location" a text that is empty or made of blanks only gets the
    prompt of the step again, as a continuation, and the store is exactly
    as before. *)
Theorem wizard_blank_answer_reprompts env sessionId serviceCode phoneNumber text st data :
  sessions st !! sessionId = Some data ->
  data !! "flow" = Some "registration" ->
  PyStr.strip text = "" ->
  (data !! "step" = Some "name" ->
   ussd_handler env sessionId serviceCode phoneNumber text st
     = (Ok "CON Please enter your full name:", st)) /\
  (data !! "step" = Some "location" ->
   ussd_handler env sessionId serviceCode phoneNumber text st
     = (Ok "CON Please enter your location/area:", st)).
Proof.
  intros Hd Hflow Hblank.
  rewrite (ussd_handler_in_wizard _ _ _ _ _ _ _ Hd Hflow).
  unfold handle_registration_flow, handle_registration_flow_body.
  split; intros Hstep; rewrite Hstep; cbn [opt_is String.eqb Ascii.eqb Bool.eqb];
    rewrite (blank_not_truthy _ Hblank); reflexivity.
Qed.

Lemma wizard_blank_answer_reprompts_witness :
  ussd_handler env_up "s-eve" "*123#" "+254733000009" "   " locating_store
    = (Ok "CON Please enter your location/area:", locating_store).
Proof.
  apply (wizard_blank_answer_reprompts env_up "s-eve" "*123#" "+254733000009" "   "
           locating_store locating_entry); vm_compute; reflexivity.
Defined.

(** X24. At the confirmation step "2" cancels and "0" goes back to the
    main menu, both dropping the session entry and registering nobody;
    every text other than "1", "2" and "0" shows the confirmation screen
    with the stored answers again and leaves the store exactly as it
    is. *)
Theorem wizard_confirmation_choices env sessionId serviceCode phoneNumber text st data :
  sessions st !! sessionId = Some data ->
  data !! "flow" = Some "registration" ->
  data !! "step" = Some "confirmation" ->
  (text = "2" ->
   ussd_handler env sessionId serviceCode phoneNumber text st
     = (Ok "END Registration cancelled.", set_sessions (delete sessionId) st)) /\
  (text = "0" ->
   ussd_handler env sessionId serviceCode phoneNumber text st
     = (Ok USSDSession.get_main_menu, set_sessions (delete sessionId) st)) /\
  (text <> "1" -> text <> "2" -> text <> "0" ->
   ussd_handler env sessionId serviceCode phoneNumber text st
     = (Ok (USSDSession.get_registration_confirmation (data !! "name")
              (data !! "location")), st)).
Proof.
  intros Hd Hflow Hstep.
  rewrite (ussd_handler_in_wizard _ _ _ _ _ _ _ Hd Hflow).
  unfold handle_registration_flow, handle_registration_flow_body.
  rewrite Hstep. cbn [opt_is String.eqb Ascii.eqb Bool.eqb].
  split; [intros ->; reflexivity|]. split; [intros ->; reflexivity|].
  intros H1 H2 H0.
  destruct (String.eqb_spec text "1"); [contradiction|].
  destruct (String.eqb_spec text "2"); [contradiction|].
  destruct (String.eqb_spec text "0"); [contradiction|].
  reflexivity.
Qed.

Lemma wizard_confirmation_choices_witness :
  ussd_handler env_up "s-eve" "*123#" "+254733000009" "yes" confirming_store
    = (Ok (USSDSession.get_registration_confirmation (Some "Eve") (Some "Mombasa")),
       confirming_store).
Proof.
  refine (proj2 (proj2 (wizard_confirmation_choices env_up "s-eve" "*123#"
                          "+254733000009" "yes" confirming_store
                          (session_of confirming_store "s-eve") _ _ _)) _ _ _);
    try (vm_compute; reflexivity); discriminate.
Defined.

(** X25. While a wizard is active for a session, the text is never read as
    a menu path: whatever it is, "1*1*1" included, the request creates no
    emergency report and makes no gateway call. *)
Theorem active_wizard_shadows_menu env sessionId serviceCode phoneNumber text st :
  opt_is (session_of st sessionId !! "flow") "registration" = true ->
  exists response st',
    ussd_handler env sessionId serviceCode phoneNumber text st = (Ok response, st') /\
    emergency_reports st' = emergency_reports st /\
    sms_calls st' = sms_calls st.
Proof.
  intros Hflow. rewrite ussd_handler_dispatch, Hflow.
  destruct (handle_registration_flow_well_formed env sessionId phoneNumber text
              (text_array_of text) (session_of st sessionId) st)
    as (r & st' & Hrun & _).
  exists r, st'. split; [assumption|].
  apply handle_registration_flow_frame in Hrun. tauto.
Qed.

Lemma active_wizard_shadows_menu_witness :
  exists response st',
    ussd_handler env_up "s-eve" "*123#" "+254733000009" "1*1*1" locating_store
      = (Ok response, st') /\
    emergency_reports st' = emergency_reports locating_store /\
    sms_calls st' = sms_calls locating_store.
Proof.
  apply active_wizard_shadows_menu. vm_compute. reflexivity.
Defined.

(** ** The menu *)

(** X26. A phone that is registered cannot enter the wizard: with no
    wizard active, "2" is answered with the terminal screen that shows the
    name, the location and the day of registration of the record, and the
    store is exactly as before: no session entry is created. *)
Theorem registered_phone_is_turned_away env sessionId serviceCode phoneNumber user st :
  opt_is (session_of st sessionId !! "flow") "registration" = false ->
  PyDict.get phoneNumber (users_db st) = Some user ->
  ussd_handler env sessionId serviceCode phoneNumber "2" st =
    (Ok ("END You are already registered!" +:+ LF +:+
         "Name: " +:+ User.name user +:+ LF +:+
         "Location: " +:+ User.location user +:+ LF +:+
         "Registered: " +:+ PyStr.take 10 (User.registration_date user)), st).
Proof.
  intros Hflow Huser. rewrite ussd_handler_dispatch, Hflow.
  unfold menu_dispatch. cbn [text_array_of PyStr.truthy String.eqb Ascii.eqb Bool.eqb
                             negb orb PyStr.split].
  run_m. now rewrite Huser.
Qed.

Lemma registered_phone_is_turned_away_witness :
  ussd_handler env_up "sess-0001" "*123#" "+254712000002" "2" westlands_store =
    (Ok ("END You are already registered!" +:+ LF +:+ "Name: Brian" +:+ LF +:+
         "Location: westlands" +:+ LF +:+ "Registered: 2025-06-20"), westlands_store).
Proof.
  apply (registered_phone_is_turned_away env_up "sess-0001" "*123#" "+254712000002"
           (User.mk "+254712000002" "Brian" "westlands" "2025-06-20T08:00:00.000000")
           westlands_store); reflexivity.
Defined.

(** X27. An emergency confirmed from a phone that is not registered is
    reported and acknowledged without any notification: the report is
    stored under the reference id of the session, the session entry is
    dropped, no gateway call is made, and the acknowledgement has no line
    about notified users. *)
Theorem unregistered_caller_is_reported env sessionId serviceCode phoneNumber text k
    alert_type st :
  opt_is (session_of st sessionId !! "flow") "registration" = false ->
  text_array_of text = ["1"; k; "1"] ->
  PyDict.get k emergency_types = Some alert_type ->
  PyDict.get phoneNumber (users_db st) = None ->
  exists st',
    ussd_handler env sessionId serviceCode phoneNumber text st =
      (Ok (acknowledgement alert_type sessionId phoneNumber None), st') /\
    emergency_reports st' !! reference_id_of sessionId
      = Some (report_of env sessionId phoneNumber alert_type) /\
    sessions st' !! sessionId = None /\
    sms_calls st' = sms_calls st /\ users_db st' = users_db st.
Proof.
  intros Hflow Hpath Htype Huser.
  rewrite (ussd_handler_confirm _ _ _ _ _ _ _ _ Hflow Hpath Htype).
  rewrite (confirm_alert_unregistered _ _ _ _ _ Huser).
  eexists. split; [reflexivity|]. cbn.
  rewrite lookup_insert_eq, lookup_delete_eq. auto.
Qed.

Lemma unregistered_caller_is_reported_witness :
  exists st',
    ussd_handler env_up "sess-0001" "*123#" "+254799000000" "1*3*1" westlands_store =
      (Ok (acknowledgement "Security Alert" "sess-0001" "+254799000000" None), st') /\
    sms_calls st' = [].
Proof.
  destruct (unregistered_caller_is_reported env_up "sess-0001" "*123#" "+254799000000"
              "1*3*1" "3" "Security Alert" westlands_store)
    as (st' & Hrun & _ & _ & Hcalls & _); try (vm_compute; reflexivity).
  exists st'. split; [exact Hrun | exact Hcalls].
Defined.

(** X28. Outside the wizard a path of four segments or more, and the
    confirmation "1*k*1" of a type k that is not in the table, end in the
    generic fallback: the session entry is dropped and nothing else
    happens, in particular no report is created. *)
Theorem unknown_paths_fall_back env sessionId serviceCode phoneNumber text st :
  opt_is (session_of st sessionId !! "flow") "registration" = false ->
  (4 <= length (text_array_of text) \/
   exists k, text_array_of text = ["1"; k; "1"] /\ PyDict.get k emergency_types = None) ->
  ussd_handler env sessionId serviceCode phoneNumber text st =
    (Ok fallback_response, set_sessions (delete sessionId) st).
Proof.
  intros Hflow Hpath. rewrite ussd_handler_dispatch, Hflow. unfold menu_dispatch.
  rewrite deep_text_not_root by (destruct Hpath as [H | (k & -> & _)]; cbn; lia).
  destruct Hpath as [Hlen | (k & -> & Hk)].
  - destruct (text_array_of text) as [|t0 [|t1 [|t2 [|t3 rest]]]];
      cbn in Hlen; try lia. reflexivity.
  - cbn [String.eqb Ascii.eqb Bool.eqb andb]. now rewrite Hk.
Qed.

Lemma unknown_paths_fall_back_witness :
  ussd_handler env_up "sess-0001" "*123#" "+254712000001" "1*9*1" westlands_store =
    (Ok fallback_response, set_sessions (delete "sess-0001") westlands_store).
Proof.
  apply unknown_paths_fall_back; [reflexivity|].
  right. exists "9". split; reflexivity.
Defined.

Lemma wizard_step_enter env sessionId serviceCode phoneNumber st :
  opt_is (session_of st sessionId !! "flow") "registration" = false ->
  PyDict.get phoneNumber (users_db st) = None ->
  ussd_handler env sessionId serviceCode phoneNumber "2" st =
    (Ok USSDSession.get_registration_name_prompt,
     set_sessions (insert sessionId (new_wizard_entry phoneNumber)) st).
Proof.
  intros Hflow Huser. rewrite ussd_handler_dispatch, Hflow.
  unfold menu_dispatch. cbn [text_array_of PyStr.truthy String.eqb Ascii.eqb Bool.eqb
                             negb orb PyStr.split].
  run_m. now rewrite Huser.
Qed.

(** X29. The whole registration, one answer per request: for a phone that
    is not registered and a session without entry, the requests "2", a
    non-blank name, a non-blank location and "1" are answered by the name
    prompt, the location prompt, the confirmation screen and the success
    screen; afterwards the phone is registered with the name and the
    location without their surrounding blanks, the session has no entry
    and the records of the other phones are as before. *)
Theorem wizard_registers_answers env session phone name location st :
  sessions st !! session = None ->
  PyDict.get phone (users_db st) = None ->
  PyStr.strip name <> "" ->
  PyStr.strip location <> "" ->
  exists st',
    run env [ request session phone "2";
              request session phone name;
              request session phone location;
              request session phone "1" ] st =
      ([ Ok USSDSession.get_registration_name_prompt;
         Ok (USSDSession.get_registration_location_prompt (PyStr.strip name));
         Ok (USSDSession.get_registration_confirmation
               (Some (PyStr.strip name)) (Some (PyStr.strip location)));
         Ok ("END Registration successful!" +:+ LF +:+
             "Name: " +:+ PyStr.strip name +:+ LF +:+
             "Location: " +:+ PyStr.strip location +:+ LF +:+
             "Phone: " +:+ phone +:+ LF +:+
             "You can now receive location alerts!") ], st') /\
    PyDict.get phone (users_db st') =
      Some (User.mk phone (PyStr.strip name) (PyStr.strip location) (now env)) /\
    sessions st' !! session = None /\
    (forall other, other <> phone ->
       PyDict.get other (users_db st') = PyDict.get other (users_db st)).
Proof.
  intros Hnone Huser Hname Hloc.
  pose proof (no_entry_no_flow _ _ Hnone) as Hflow.
  cbn [run]. unfold serve, request.
  cbn [sessionId serviceCode phoneNumber text].
  rewrite (wizard_step_enter env session "*123#" phone st Hflow Huser).
  cbv beta iota.
  set (d0 := new_wizard_entry phone).
  set (st1 := set_sessions (insert session d0) st).
  assert (sessions st1 !! session = Some d0) as H1 by apply lookup_insert_eq.
  rewrite (wizard_step_name env session "*123#" phone name st1 d0 H1
             eq_refl eq_refl Hname).
  cbv beta iota.
  set (d1 := <["step" := "location"]> (<["name" := PyStr.strip name]> d0)).
  set (st2 := set_sessions (insert session d1) st1).
  assert (sessions st2 !! session = Some d1) as H2 by apply lookup_insert_eq.
  rewrite (wizard_step_location env session "*123#" phone location st2 d1 H2
             eq_refl eq_refl Hloc).
  cbv beta iota.
  set (d2 := <["step" := "confirmation"]> (<["location" := PyStr.strip location]> d1)).
  set (st3 := set_sessions (insert session d2) st2).
  assert (sessions st3 !! session = Some d2) as H3 by apply lookup_insert_eq.
  rewrite (wizard_step_commit env session "*123#" phone st3 d2
             (PyStr.strip name) (PyStr.strip location) H3 eq_refl eq_refl eq_refl eq_refl).
  cbv beta iota.
  eexists. split; [reflexivity|].
  cbn [users_db sessions set_sessions set_users_db]. subst st3 st2 st1.
  cbn [users_db sessions set_sessions set_users_db].
  split; [apply dict_get_set_eq|]. split; [apply lookup_delete_eq|].
  intros other Hother. apply dict_get_set_ne. congruence.
Qed.

Lemma wizard_registers_answers_witness :
  exists st',
    run env_up [ request "sess-9" "+254799000000" "2";
                 request "sess-9" "+254799000000" " Faith ";
                 request "sess-9" "+254799000000" "Westlands";
                 request "sess-9" "+254799000000" "1" ] westlands_store =
      ([ Ok USSDSession.get_registration_name_prompt;
         Ok (USSDSession.get_registration_location_prompt "Faith");
         Ok (USSDSession.get_registration_confirmation (Some "Faith") (Some "Westlands"));
         Ok ("END Registration successful!" +:+ LF +:+ "Name: Faith" +:+ LF +:+
             "Location: Westlands" +:+ LF +:+ "Phone: +254799000000" +:+ LF +:+
             "You can now receive location alerts!") ], st') /\
    PyDict.get "+254799000000" (users_db st') =
      Some (User.mk "+254799000000" "Faith" "Westlands" (now env_up)).
Proof.
  destruct (wizard_registers_answers env_up "sess-9" "+254799000000" " Faith "
              "Westlands" westlands_store) as (st' & Hrun & Hget & _);
    try (vm_compute; reflexivity); try (vm_compute; discriminate).
  exists st'. split; [exact Hrun | exact Hget].
Defined.
